(** * TensorFlow.js learning platform: result log, metric recorder, benchmark
      runner, export helpers and demo runner

    A shallow embedding of the JavaScript sources

      - [js/utils/performance-monitor.js]  (class [PerformanceMonitor])
      - [js/core/tensor-utils.js]          (class [TensorUtils])
      - [js/utils/export-utils.js]         (class [ExportUtils])
      - the tensor operations demo         (class [TensorOperationsDemo] and
                                            the page-level click handlers)

    All four scripts run on one page and share its globals, the DOM and the
    TensorFlow.js engine, so the embedding threads one [Page] store through a
    state-and-exception monad.  JavaScript numbers are IEEE 754 binary64 and
    are modelled by the primitive floats; array lengths and loop counters are
    naturals. *)

From Stdlib Require Import List String Ascii Bool Arith ZArith Lia Floats.
Import ListNotations.

Set Implicit Arguments.

(* ================================================================== *)
(** * JavaScript values *)
(* ================================================================== *)

Module Js.

Definition number := float.

(** The number of a length or counter. *)
Definition of_nat (n : nat) : number :=
  PrimFloat.of_uint63 (Uint63.of_Z (Z.of_nat n)).

(** One step of [Math.max]: NaN is contagious, and [+0] is above [-0]. *)
Definition max2 (a b : number) : number :=
  if PrimFloat.is_nan a || PrimFloat.is_nan b then PrimFloat.nan
  else if PrimFloat.ltb a b then b
  else if PrimFloat.ltb b a then a
  else if PrimFloat.get_sign a then b else a.

(** One step of [Math.min]. *)
Definition min2 (a b : number) : number :=
  if PrimFloat.is_nan a || PrimFloat.is_nan b then PrimFloat.nan
  else if PrimFloat.ltb a b then a
  else if PrimFloat.ltb b a then b
  else if PrimFloat.get_sign a then a else b.

(** [Math.max(...xs)] and [Math.min(...xs)]: the fold starts at
    [-Infinity], resp. [+Infinity], which is the result for no argument. *)
Definition Math_max (xs : list number) : number :=
  fold_left max2 xs PrimFloat.neg_infinity.

Definition Math_min (xs : list number) : number :=
  fold_left min2 xs PrimFloat.infinity.

(** [xs.reduce((a, b) => a + b, 0)]. *)
Definition sum (xs : list number) : number :=
  fold_left PrimFloat.add xs PrimFloat.zero.

(** The line feed of the template literals. *)
Definition nl : string := String (ascii_of_nat 10) EmptyString.

(** [xs.join('')]. *)
Definition join (xs : list string) : string :=
  fold_right String.append EmptyString xs.

(** [xs.join(sep)]. *)
Fixpoint join_with (sep : string) (xs : list string) : string :=
  match xs with
  | [] => EmptyString
  | [x] => x
  | x :: rest => (x ++ sep ++ join_with sep rest)%string
  end.

(** [s.replace(/[:.]/g, '-')]. *)
Definition dash (c : ascii) : ascii :=
  if (Ascii.eqb c ":" || Ascii.eqb c ".")%char then "-"%char else c.

Fixpoint replace_colon_dot (s : string) : string :=
  match s with
  | EmptyString => EmptyString
  | String c rest => String (dash c) (replace_colon_dot rest)
  end.

(** Does [c] occur in [s]? *)
Fixpoint occurs (c : ascii) (s : string) : bool :=
  match s with
  | EmptyString => false
  | String d rest => Ascii.eqb c d || occurs c rest
  end.

(** [(s.match(/pat/g) || []).length] for a literal, non-empty pattern:
    matches are taken left to right and do not overlap, so after a match
    the scan skips the rest of the matched text. *)
Fixpoint count_from (pat : string) (skip : nat) (s : string) : nat :=
  match s with
  | EmptyString => 0
  | String _ rest =>
      match skip with
      | S k => count_from pat k rest
      | O => if String.prefix pat s
             then S (count_from pat (String.length pat - 1) rest)
             else count_from pat 0 rest
      end
  end.

Definition count_matches (pat s : string) : nat := count_from pat 0 s.

(** A thrown [Error] object. *)
Record Error := mkError { message : string }.

(** A [Date] object wraps a time value (milliseconds since the epoch). *)
Record Date := mkDate { getTime : number }.

End Js.

(* ================================================================== *)
(** * What the host provides *)
(* ================================================================== *)

(** A tensor handle of the TensorFlow.js engine.  The engine keeps one cell
    per handle ever created; the handle is the index of its cell. *)
Record TensorCell := mkCell {
  isDisposed : bool;     (* tensor.isDisposed *)
  disposeCalls : nat     (* how often tensor.dispose() ran on it *)
}.

(** Behaviour of the browser and of the libraries that this code only
    consumes: the clocks, how numbers and dates print, what a tensor holds
    and how it prints, the engine's byte count and what ending a scope does
    to the engine's tensors. *)
Class Host := {
  wallClock : nat -> Js.Date;                  (* [new Date()], by read index *)
  perfClock : nat -> Js.number;                (* [performance.now()] *)
  toISOString : Js.Date -> string;            (* [date.toISOString()] *)
  dateToString : Js.Date -> string;           (* a Date in a template literal *)
  toFixed : Js.number -> nat -> string;       (* [x.toFixed(digits)] *)
  numToString : Js.number -> string;          (* a number in a template literal *)
  tensorToString : nat -> string;             (* [tensor.toString()] *)
  tensorRank : nat -> nat;                    (* [tensor.shape.length] *)
  tensorShapeJson : nat -> string;            (* [JSON.stringify(tensor.shape)] *)
  tensorData : nat -> string;                 (* [Array.from(tensor.dataSync())], printed *)
  tensorArrayJson : nat -> string;            (* [JSON.stringify(tensor.arraySync())] *)
  tensorScalar : nat -> Js.number;            (* [tensor.dataSync()[0]] *)
  endScope : list TensorCell -> list TensorCell;
                                              (* what [tf.engine().endScope()] does
                                                 to the registered tensors *)
  numBytes : list TensorCell -> Js.number     (* [tf.memory().numBytes] *)
}.

(* ================================================================== *)
(** * The page store *)
(* ================================================================== *)

(** ** performance-monitor.js *)

Record Metric := mkMetric {
  operation : string;
  executionTime : Js.number;
  memoryBefore : Js.number;
  memoryAfter : Js.number;
  memoryDelta : Js.number;
  timestamp : Js.Date
}.

Record PerformanceMonitor := mkMonitor {
  metrics : list Metric;
  isMonitoring : bool;
  updateInterval : option nat        (* [null] or the interval id *)
}.

(** One element of [summary.operations]. *)
Record OperationInfo := mkOperationInfo {
  op_operation : string;
  op_executionTime : Js.number;
  op_memoryDelta : Js.number;
  op_timestamp : Js.Date
}.

(** The object returned by [getSummary]; the empty-recorder object has no
    [operations] property. *)
Record Summary := mkSummary {
  totalOperations : nat;
  averageExecutionTime : Js.number;
  totalMemoryUsed : Js.number;
  peakMemoryUsage : Js.number;
  operations : option (list OperationInfo)
}.

(** ** the tensor operations demo *)

Record ResultEntry := mkResult {
  title : string;
  content : string;
  r_timestamp : Js.Date
}.

(** The Chart.js instance, cut down to what the demo writes: the chart
    type, and the tensor whose data was last handed to it. *)
Record Chart := mkChart {
  chartType : string;
  shown : option nat
}.

Record TensorOperationsDemo := mkDemo {
  results : list ResultEntry;
  chart : option Chart
}.

(** ** the browser *)

Record ProgressBar := mkBar {
  width : string;
  textContent : string;
  className : string
}.

(** The payload handed to [new Blob([...])]: text, or the text that
    [JSON.stringify(v, null, 2)] makes of a value, kept as that value. *)
#[warnings="-register-all"]
Inductive Json :=
| JNull
| JNum (x : Js.number)
| JStr (s : string)
| JDate (d : Js.Date)
| JArr (items : list Json)
| JObj (fields : list (string * Json)).

Inductive Payload :=
| Text (s : string)
| Stringified (v : Json).

Record Download := mkDownload {
  payload : Payload;
  mime : string;
  filename : string
}.

Record Browser := mkBrowser {
  clockReads : nat;                          (* clock reads so far *)
  nextTimer : nat;                           (* next interval id, never 0 *)
  intervals : list nat;                      (* scheduled interval timers *)
  resultsElement : option string;            (* #results and its value *)
  memoryElement : option (option ProgressBar);
                                             (* #memory-usage, its .progress-bar *)
  executionElement : option string;          (* #execution-time, textContent *)
  downloads : list Download;                 (* files handed to the user *)
  consoleErrors : list string                (* console.error lines *)
}.

(** ** the TensorFlow.js engine *)

Record Engine := mkEngine {
  tensors : list TensorCell;
  pending : list (option string)
    (* outcome of the next tensor-producing or chart calls: [Some msg]
       makes the call raise [Error(msg)]; past the end calls succeed *)
}.

Record Page := mkPage {
  performanceMonitor : PerformanceMonitor;
  tensorDemo : TensorOperationsDemo;
  browser : Browser;
  tf : Engine;
  invocations : nat
    (* bookkeeping: calls of the operation given to the benchmark helpers *)
}.

(** The page after its scripts are loaded: [new PerformanceMonitor()],
    [new TensorOperationsDemo()], no timer yet. *)
Definition fresh_monitor : PerformanceMonitor :=
  mkMonitor [] false None.

Definition fresh_browser : Browser :=
  mkBrowser 0 1 [] (Some EmptyString) None None [] [].

Definition fresh_page : Page :=
  mkPage fresh_monitor (mkDemo [] None) fresh_browser (mkEngine [] []) 0.

(** Field updates. *)
Definition with_monitor (f : PerformanceMonitor -> PerformanceMonitor) (s : Page) :=
  mkPage (f (performanceMonitor s)) (tensorDemo s) (browser s) (tf s) (invocations s).
Definition with_demo (f : TensorOperationsDemo -> TensorOperationsDemo) (s : Page) :=
  mkPage (performanceMonitor s) (f (tensorDemo s)) (browser s) (tf s) (invocations s).
Definition with_browser (f : Browser -> Browser) (s : Page) :=
  mkPage (performanceMonitor s) (tensorDemo s) (f (browser s)) (tf s) (invocations s).
Definition with_tf (f : Engine -> Engine) (s : Page) :=
  mkPage (performanceMonitor s) (tensorDemo s) (browser s) (f (tf s)) (invocations s).
Definition with_invocations (f : nat -> nat) (s : Page) :=
  mkPage (performanceMonitor s) (tensorDemo s) (browser s) (tf s) (f (invocations s)).

Definition set_metrics (ms : list Metric) (m : PerformanceMonitor) :=
  mkMonitor ms (isMonitoring m) (updateInterval m).
Definition set_isMonitoring (b : bool) (m : PerformanceMonitor) :=
  mkMonitor (metrics m) b (updateInterval m).
Definition set_updateInterval (i : option nat) (m : PerformanceMonitor) :=
  mkMonitor (metrics m) (isMonitoring m) i.

Definition set_results (rs : list ResultEntry) (d : TensorOperationsDemo) :=
  mkDemo rs (chart d).
Definition set_chart (c : option Chart) (d : TensorOperationsDemo) :=
  mkDemo (results d) c.

Definition set_clockReads (n : nat) (b : Browser) :=
  mkBrowser n (nextTimer b) (intervals b) (resultsElement b) (memoryElement b)
            (executionElement b) (downloads b) (consoleErrors b).
Definition set_timers (next : nat) (ids : list nat) (b : Browser) :=
  mkBrowser (clockReads b) next ids (resultsElement b) (memoryElement b)
            (executionElement b) (downloads b) (consoleErrors b).
Definition set_resultsElement (e : option string) (b : Browser) :=
  mkBrowser (clockReads b) (nextTimer b) (intervals b) e (memoryElement b)
            (executionElement b) (downloads b) (consoleErrors b).
Definition set_memoryElement (e : option (option ProgressBar)) (b : Browser) :=
  mkBrowser (clockReads b) (nextTimer b) (intervals b) (resultsElement b) e
            (executionElement b) (downloads b) (consoleErrors b).
Definition set_executionElement (e : option string) (b : Browser) :=
  mkBrowser (clockReads b) (nextTimer b) (intervals b) (resultsElement b)
            (memoryElement b) e (downloads b) (consoleErrors b).
Definition set_downloads (ds : list Download) (b : Browser) :=
  mkBrowser (clockReads b) (nextTimer b) (intervals b) (resultsElement b)
            (memoryElement b) (executionElement b) ds (consoleErrors b).
Definition set_consoleErrors (es : list string) (b : Browser) :=
  mkBrowser (clockReads b) (nextTimer b) (intervals b) (resultsElement b)
            (memoryElement b) (executionElement b) (downloads b) es.

Definition set_tensors (ts : list TensorCell) (e : Engine) :=
  mkEngine ts (pending e).
Definition set_pending (p : list (option string)) (e : Engine) :=
  mkEngine (tensors e) p.

(* ================================================================== *)
(** * Statements with effects *)
(* ================================================================== *)

(** A statement either completes with a value or throws. *)
Inductive Completion (A : Type) :=
| Normal (a : A)
| Throw (e : Js.Error).
Arguments Normal {A} a.
Arguments Throw {A} e.

Definition M (A : Type) : Type := Page -> Completion A * Page.

Definition ret {A} (a : A) : M A := fun s => (Normal a, s).

Definition throw {A} (e : Js.Error) : M A := fun s => (Throw e, s).

Definition bind {A B} (m : M A) (k : A -> M B) : M B :=
  fun s =>
    match m s with
    | (Normal a, s1) => k a s1
    | (Throw e, s1) => (Throw e, s1)
    end.

(** [try { body } catch (error) { handler }]. *)
Definition try_catch {A} (body : M A) (handler : Js.Error -> M A) : M A :=
  fun s =>
    match body s with
    | (Normal a, s1) => (Normal a, s1)
    | (Throw e, s1) => handler e s1
    end.

Definition get : M Page := fun s => (Normal s, s).
Definition modify (f : Page -> Page) : M unit := fun s => (Normal tt, f s).

(** The page a statement leaves behind, and how it completes. *)
Definition exec {A} (m : M A) (s : Page) : Page := snd (m s).
Definition completion {A} (m : M A) (s : Page) : Completion A := fst (m s).

Declare Scope js_scope.
Delimit Scope js_scope with js.
Notation "'let*' x ':=' m 'in' k" := (bind m (fun x => k))
  (at level 10, x name, m at level 100, k at level 200) : js_scope.
Notation "m ';;' k" := (bind m (fun _ => k))
  (at level 61, right associativity) : js_scope.
Open Scope js_scope.
Open Scope string_scope.

(** [forEach] over an array. *)
Fixpoint forEach {A} (f : A -> M unit) (xs : list A) : M unit :=
  match xs with
  | [] => ret tt
  | x :: rest => f x ;; forEach f rest
  end.

Section Scripts.

Context {host : Host}.

(* ================================================================== *)
(** * Browser and engine primitives *)
(* ================================================================== *)

(** [new Date()]. *)
Definition new_Date : M Js.Date :=
  fun s =>
    let n := clockReads (browser s) in
    (Normal (wallClock n), with_browser (set_clockReads (S n)) s).

(** [performance.now()]. *)
Definition performance_now : M Js.number :=
  fun s =>
    let n := clockReads (browser s) in
    (Normal (perfClock n), with_browser (set_clockReads (S n)) s).

(** [setInterval(callback, 1000)]: schedules a timer, returns its id. *)
Definition setInterval : M nat :=
  fun s =>
    let b := browser s in
    let id := nextTimer b in
    (Normal id, with_browser (set_timers (S id) (intervals b ++ [id])) s).

(** [clearInterval(id)]. *)
Definition clearInterval (id : nat) : M unit :=
  modify (with_browser (fun b =>
    set_timers (nextTimer b) (filter (fun i => negb (Nat.eqb i id)) (intervals b)) b)).

(** [console.error(...)]. *)
Definition console_error (line : string) : M unit :=
  modify (with_browser (fun b => set_consoleErrors (consoleErrors b ++ [line]) b)).

(** [tf.memory().numBytes]. *)
Definition tf_memory_numBytes : M Js.number :=
  fun s => (Normal (numBytes (tensors (tf s))), s).

(* ================================================================== *)
(** * performance-monitor.js: class PerformanceMonitor *)
(* ================================================================== *)

Definition this_metrics : M (list Metric) :=
  fun s => (Normal (metrics (performanceMonitor s)), s).

(** [updateDisplay()]. *)
Definition updateDisplay_body : M unit :=
  let* memoryUsage := tf_memory_numBytes in
  let* s := get in
  (match memoryElement (browser s) with
   | Some memory_element =>
       match memory_element with
       | None =>
           (* progressBar is null *)
           throw (Js.mkError "Cannot read properties of null (reading 'style')")
       | Some _ =>
           let percentage :=
             Js.min2 ((memoryUsage / (1024 * 1024 * 100)) * 100)%float 100%float in
           let class_name :=
             if PrimFloat.ltb 80 percentage then "progress-bar bg-danger"
             else if PrimFloat.ltb 60 percentage then "progress-bar bg-warning"
             else "progress-bar bg-success" in
           modify (with_browser (set_memoryElement (Some (Some
             (mkBar (numToString percentage ++ "%")
                    (toFixed (memoryUsage / 1024)%float 1 ++ " KB")
                    class_name)))))
       end
   | None => ret tt
   end) ;;
  let* s := get in
  let ms := metrics (performanceMonitor s) in
  match executionElement (browser s) with
  | Some _ =>
      if Nat.ltb 0 (List.length ms) then
        let avgTime :=
          (fold_left (fun sum metric => sum + executionTime metric)%float ms 0%float
           / Js.of_nat (List.length ms))%float in
        modify (with_browser (set_executionElement (Some (toFixed avgTime 2 ++ "ms"))))
      else ret tt
  | None => ret tt
  end.

Definition updateDisplay : M unit :=
  try_catch updateDisplay_body
    (fun error =>
       console_error ("Error updating performance display: " ++ Js.message error)).

(** [start()]. *)
Definition start : M unit :=
  let* s := get in
  if isMonitoring (performanceMonitor s) then ret tt
  else
    modify (with_monitor (set_isMonitoring true)) ;;
    let* id := setInterval in
    modify (with_monitor (set_updateInterval (Some id))).

(** [if (this.updateInterval)]: [null] and [0] are falsy. *)
Definition truthy_interval (i : option nat) : option nat :=
  match i with
  | Some 0 => None
  | Some id => Some id
  | None => None
  end.

(** [stop()]. *)
Definition stop : M unit :=
  let* s := get in
  if negb (isMonitoring (performanceMonitor s)) then ret tt
  else
    modify (with_monitor (set_isMonitoring false)) ;;
    let* s := get in
    match truthy_interval (updateInterval (performanceMonitor s)) with
    | Some id =>
        clearInterval id ;;
        modify (with_monitor (set_updateInterval None))
    | None => ret tt
    end.

(** [recordMetric(operation, executionTime, memoryBefore, memoryAfter)]. *)
Definition recordMetric (operation : string)
    (executionTime memoryBefore memoryAfter : Js.number) : M unit :=
  let* now := new_Date in
  let metric :=
    mkMetric operation executionTime memoryBefore memoryAfter
             (memoryAfter - memoryBefore)%float now in
  (* this.metrics.push(metric) *)
  modify (with_monitor (fun m => set_metrics (metrics m ++ [metric]) m)) ;;
  (* Keep only last 100 metrics *)
  let* ms := this_metrics in
  if Nat.ltb 100 (List.length ms) then
    (* this.metrics.shift() *)
    modify (with_monitor (fun m => set_metrics (tl (metrics m)) m))
  else ret tt.

(** The value [getSummary] computes from [this.metrics]. *)
Definition summary_of (ms : list Metric) : Summary :=
  if Nat.eqb (List.length ms) 0 then
    mkSummary 0 0%float 0%float 0%float None
  else
    let totalOperations := List.length ms in
    mkSummary
      totalOperations
      (fold_left (fun sum m => sum + executionTime m)%float ms 0%float
       / Js.of_nat totalOperations)%float
      (fold_left (fun sum m => sum + memoryDelta m)%float ms 0%float)
      (Js.Math_max (map memoryAfter ms))
      (Some (map (fun m => mkOperationInfo (operation m) (executionTime m)
                                           (memoryDelta m) (timestamp m)) ms)).

(** [getSummary()]. *)
Definition getSummary : M Summary :=
  let* ms := this_metrics in
  ret (summary_of ms).

(** [clear()]. *)
Definition clear : M unit :=
  modify (with_monitor (set_metrics [])) ;;
  updateDisplay.

(* ================================================================== *)
(** * The TensorFlow.js engine, as this code uses it *)
(* ================================================================== *)

(** A library call that may raise: it takes the next scripted outcome. *)
Definition library_call : M unit :=
  fun s =>
    match pending (tf s) with
    | Some msg :: rest => (Throw (Js.mkError msg), with_tf (set_pending rest) s)
    | None :: rest => (Normal tt, with_tf (set_pending rest) s)
    | [] => (Normal tt, s)
    end.

(** The engine registers a new tensor and hands out its handle. *)
Definition allocate : M nat :=
  fun s =>
    let h := List.length (tensors (tf s)) in
    (Normal h, with_tf (fun e => set_tensors (tensors e ++ [mkCell false 0]) e) s).

(** [tensor.isDisposed]. *)
Definition tensor_isDisposed (t : nat) : M bool :=
  fun s =>
    match nth_error (tensors (tf s)) t with
    | Some c => (Normal (isDisposed c), s)
    | None => (Normal false, s)
    end.

(** Reading or using a disposed tensor raises. *)
Definition throwIfDisposed (t : nat) : M unit :=
  let* disposed := tensor_isDisposed t in
  if disposed then throw (Js.mkError "Tensor is disposed.") else ret tt.

(** [tf.tensor(values, shape)], [tf.randomNormal(shape)], ...: a new tensor. *)
Definition tf_tensor : M nat :=
  library_call ;; allocate.

(** [tensor.asScalar()], [tensor.flatten()], ...: a new tensor made from [t]. *)
Definition tensor_op (t : nat) : M nat :=
  throwIfDisposed t ;; library_call ;; allocate.

(** [a.add(b)], [a.sub(b)], ...: a new tensor made from two. *)
Definition tensor_op2 (a b : nat) : M nat :=
  throwIfDisposed a ;; throwIfDisposed b ;; library_call ;; allocate.

(** [tensor.toString()]. *)
Definition tensor_toString (t : nat) : M string :=
  throwIfDisposed t ;; ret (tensorToString t).

(** [tensor.dataSync()] and [tensor.arraySync()]: the tensor's values, of
    which the callers print one form or read the first. *)
Definition tensor_dataSync (t : nat) : M nat :=
  throwIfDisposed t ;; ret t.

(** How [tensor.dispose()] changes the cell of the tensor: the call is
    counted, and the tensor is disposed from then on. *)
Definition dispose_cell (c : TensorCell) : TensorCell :=
  mkCell true (S (disposeCalls c)).

Fixpoint update_nth {A} (n : nat) (f : A -> A) (xs : list A) : list A :=
  match xs, n with
  | [], _ => []
  | x :: rest, O => f x :: rest
  | x :: rest, S k => x :: update_nth k f rest
  end.

(** [tensor.dispose()]. *)
Definition tensor_dispose (t : nat) : M unit :=
  modify (with_tf (fun e => set_tensors (update_nth t dispose_cell (tensors e)) e)).

(* ================================================================== *)
(** * tensor-utils.js: class TensorUtils *)
(* ================================================================== *)

(** [safeDispose(...tensors)]; an argument may be [null] or [undefined]. *)
Definition safeDispose (tensors : list (option nat)) : M unit :=
  forEach (fun tensor =>
    match tensor with
    | Some t =>
        let* disposed := tensor_isDisposed t in
        if negb disposed then tensor_dispose t else ret tt
    | None => ret tt
    end) tensors.

(** [createRandomTensor(shape, distribution, min, max)]. *)
Definition createRandomTensor (distribution : string) : M nat :=
  if String.eqb distribution "normal" then tf_tensor       (* tf.randomNormal *)
  else if String.eqb distribution "uniform" then tf_tensor (* tf.randomUniform *)
  else if String.eqb distribution "random" then tf_tensor  (* tf.randomUniform *)
  else tf_tensor.                                          (* tf.randomNormal *)

Record Comparison := mkComparison {
  meanSquaredError : Js.number;
  meanAbsoluteError : Js.number;
  maxDifference : Js.number;
  shapesMatch : bool
}.

(** [compareTensors(tensor1, tensor2)]. *)
Definition compareTensors (tensor1 tensor2 : nat) : M Comparison :=
  let* diff := tensor_op2 tensor1 tensor2 in
  let* squared := tensor_op diff in
  let* mse := tensor_op squared in
  let* absolute := tensor_op diff in
  let* mae := tensor_op absolute in
  let* mse_data := tensor_dataSync mse in
  let* mae_data := tensor_dataSync mae in
  let* absolute' := tensor_op diff in
  let* largest := tensor_op absolute' in
  let* largest_data := tensor_dataSync largest in
  ret (mkComparison (tensorScalar mse_data) (tensorScalar mae_data)
                    (tensorScalar largest_data)
                    (String.eqb (tensorShapeJson tensor1) (tensorShapeJson tensor2))).

(** [memory.clear()]: [tf.disposeVariables()], then the engine's
    [endScope()] and [startScope()]. *)
Definition memory_clear : M unit :=
  library_call ;;
  library_call ;;
  modify (with_tf (fun e => set_tensors (endScope (tensors e)) e)) ;;
  library_call.

(** Calling the function value handed to a measuring helper. *)
Definition call {A} (fn : M A) : M A :=
  modify (with_invocations S) ;; fn.

Record TimeMeasure (A : Type) := mkTimeMeasure {
  totalTime : Js.number;
  averageTime : Js.number;
  iterations : nat;
  tm_results : list A
}.

(** [for (let i = 0; i < iterations; i++) results.push(fn())]. *)
Fixpoint measureTime_loop {A} (fn : M A) (iterations : nat) (results : list A)
  : M (list A) :=
  match iterations with
  | O => ret results
  | S k =>
      let* r := call fn in
      measureTime_loop fn k (results ++ [r])
  end.

(** [performance.measureTime(fn, iterations)]. *)
Definition measureTime {A} (fn : M A) (iterations : nat) : M (TimeMeasure A) :=
  let* start := performance_now in
  let* results := measureTime_loop fn iterations [] in
  let* end_ := performance_now in
  let avgTime := ((end_ - start) / Js.of_nat iterations)%float in
  ret (mkTimeMeasure (end_ - start)%float avgTime iterations results).

Record Benchmark := mkBenchmark {
  b_averageTime : Js.number;
  minTime : Js.number;
  maxTime : Js.number;
  b_memoryDelta : Js.number;
  times : list Js.number
}.

(** The loop of [benchmark]. *)
Fixpoint benchmark_loop (operation : M unit) (iterations : nat)
    (times : list Js.number) : M (list Js.number) :=
  match iterations with
  | O => ret times
  | S k =>
      let* start := performance_now in
      call operation ;;
      let* end_ := performance_now in
      benchmark_loop operation k (times ++ [(end_ - start)%float])
  end.

(** [performance.benchmark(operation, iterations)]. *)
Definition benchmark (operation : M unit) (iterations : nat) : M Benchmark :=
  let* memoryBefore := tf_memory_numBytes in
  let* times := benchmark_loop operation iterations [] in
  let* memoryAfter := tf_memory_numBytes in
  let avgTime := (Js.sum times / Js.of_nat (List.length times))%float in
  let minTime := Js.Math_min times in
  let maxTime := Js.Math_max times in
  ret (mkBenchmark avgTime minTime maxTime (memoryAfter - memoryBefore)%float times).

(* ================================================================== *)
(** * The tensor operations demo: class TensorOperationsDemo *)
(* ================================================================== *)

(** [updateResults(content)]. *)
Definition updateResults (content : string) : M unit :=
  let* s := get in
  match resultsElement (browser s) with
  | Some _ => modify (with_browser (set_resultsElement (Some content)))
  | None => ret tt
  end.

(** The text [formatResults] makes of [this.results]. *)
Definition format_entries (rs : list ResultEntry) : string :=
  Js.join (map (fun result =>
    "=== " ++ title result ++ " ===" ++ Js.nl ++ content result ++ Js.nl ++ Js.nl) rs).

(** [formatResults()]. *)
Definition formatResults : M string :=
  let* s := get in
  ret (format_entries (results (tensorDemo s))).

(** [addResult(title, content)]. *)
Definition addResult (title content : string) : M unit :=
  let* now := new_Date in
  modify (with_demo (fun d => set_results (results d ++ [mkResult title content now]) d)) ;;
  let* text := formatResults in
  updateResults text.

(** [updateChart(tensor)].  [tensorToChartData] reads the tensor's data,
    which raises on a disposed tensor; rank 1 gives a line chart, rank 2 a
    bar chart and any other rank leaves the chart's data alone. *)
Definition updateChart (tensor : nat) : M unit :=
  let* s := get in
  match chart (tensorDemo s) with
  | None => ret tt
  | Some c =>
      throwIfDisposed tensor ;;
      (if Nat.eqb (tensorRank tensor) 1 then
         modify (with_demo (set_chart (Some (mkChart (chartType c) (Some tensor)))))
       else if Nat.eqb (tensorRank tensor) 2 then
         modify (with_demo (set_chart (Some (mkChart "bar" (Some tensor)))))
       else ret tt) ;;
      (* this.chart.update() *)
      library_call
  end.

(** The [try] block of [runTensorShape()]. *)
Definition runTensorShape_try (startTime : Js.number) : M unit :=
  let content := "=== TENSOR SHAPE OPERATIONS ===" ++ Js.nl ++ Js.nl in
  (* Basic shape operations *)
  let* tensor1d := tf_tensor in
  let* asScalar := tensor_op tensor1d in
  let* before := tensor_toString tensor1d in
  let* after := tensor_toString asScalar in
  let content := content ++ "asScalar:" ++ Js.nl ++ "Before: " ++ before ++ Js.nl
                         ++ "After: " ++ after ++ Js.nl ++ Js.nl in
  let* tensor2d := tf_tensor in
  let* flatten := tensor_op tensor2d in
  let* before := tensor_toString tensor2d in
  let* after := tensor_toString flatten in
  let content := content ++ "flatten:" ++ Js.nl ++ "Before: " ++ before ++ Js.nl
                         ++ "After: " ++ after ++ Js.nl ++ Js.nl in
  let* tensor1 := tf_tensor in
  let* as1D := tensor_op tensor1 in
  let* before := tensor_toString tensor1 in
  let* after := tensor_toString as1D in
  let content := content ++ "as1D:" ++ Js.nl ++ "Before: " ++ before ++ Js.nl
                         ++ "After: " ++ after ++ Js.nl ++ Js.nl in
  let* tensor2 := tf_tensor in
  let* as2D := tensor_op tensor2 in
  let* before := tensor_toString tensor2 in
  let* after := tensor_toString as2D in
  let content := content ++ "as2D:" ++ Js.nl ++ "Before: " ++ before ++ Js.nl
                         ++ "After: " ++ after ++ Js.nl ++ Js.nl in
  let* tensor3 := tf_tensor in
  let* as3D := tensor_op tensor3 in
  let* before := tensor_toString tensor3 in
  let* after := tensor_toString as3D in
  let content := content ++ "as3D:" ++ Js.nl ++ "Before: " ++ before ++ Js.nl
                         ++ "After: " ++ after ++ Js.nl ++ Js.nl in
  let* tensor4 := tf_tensor in
  let* as4D := tensor_op tensor4 in
  let* before := tensor_toString tensor4 in
  let* after := tensor_toString as4D in
  let content := content ++ "as4D:" ++ Js.nl ++ "Before: " ++ before ++ Js.nl
                         ++ "After: " ++ after ++ Js.nl ++ Js.nl in
  let* tensor5 := tf_tensor in
  let* as5D := tensor_op tensor5 in
  let* before := tensor_toString tensor5 in
  let* after := tensor_toString as5D in
  let content := content ++ "as5D:" ++ Js.nl ++ "Before: " ++ before ++ Js.nl
                         ++ "After: " ++ after ++ Js.nl ++ Js.nl in
  (* Advanced shape operations *)
  let* expandTensor := tf_tensor in
  let* expanded := tensor_op expandTensor in
  let* before := tensor_toString expandTensor in
  let* after := tensor_toString expanded in
  let content := content ++ "expandDims:" ++ Js.nl ++ "Before: " ++ before ++ Js.nl
                         ++ "After: " ++ after ++ Js.nl ++ Js.nl in
  let* squeezeTensor := tf_tensor in
  let* squeezed := tensor_op squeezeTensor in
  let* before := tensor_toString squeezeTensor in
  let* after := tensor_toString squeezed in
  let content := content ++ "squeeze:" ++ Js.nl ++ "Before: " ++ before ++ Js.nl
                         ++ "After: " ++ after ++ Js.nl ++ Js.nl in
  (* Update chart with last tensor *)
  updateChart squeezed ;;
  (* Clean up *)
  safeDispose [Some tensor1d; Some asScalar; Some tensor2d; Some flatten;
               Some tensor1; Some as1D; Some tensor2; Some as2D;
               Some tensor3; Some as3D; Some tensor4; Some as4D;
               Some tensor5; Some as5D; Some expandTensor; Some expanded;
               Some squeezeTensor; Some squeezed] ;;
  let* endTime := performance_now in
  let content := content ++ "Execution time: "
                         ++ toFixed (endTime - startTime)%float 2 ++ "ms" ++ Js.nl in
  let* bytes := tf_memory_numBytes in
  let content := content ++ "Memory usage: "
                         ++ toFixed (bytes / 1024)%float 2 ++ " KB" in
  addResult "Shape Operations" content.

(** [runTensorShape()]. *)
Definition runTensorShape : M unit :=
  let* startTime := performance_now in
  try_catch (runTensorShape_try startTime)
    (fun error =>
       addResult "Error" ("Error in shape operations: " ++ Js.message error)).

(** The [try] block of [runDataType()]. *)
Definition runDataType_try (startTime : Js.number) : M unit :=
  let content := "=== DATA TYPE CONVERSIONS ===" ++ Js.nl ++ Js.nl in
  (* Type conversions *)
  let* boolTensor := tf_tensor in
  let* toFloat := tensor_op boolTensor in
  let* before := tensor_toString boolTensor in
  let* after := tensor_toString toFloat in
  let content := content ++ "toFloat:" ++ Js.nl ++ "Before: " ++ before ++ Js.nl
                         ++ "After: " ++ after ++ Js.nl ++ Js.nl in
  let* floatTensor := tf_tensor in
  let* toInt := tensor_op floatTensor in
  let* before := tensor_toString floatTensor in
  let* after := tensor_toString toInt in
  let content := content ++ "toInt:" ++ Js.nl ++ "Before: " ++ before ++ Js.nl
                         ++ "After: " ++ after ++ Js.nl ++ Js.nl in
  let* intTensor := tf_tensor in
  let* toBool := tensor_op intTensor in
  let* before := tensor_toString intTensor in
  let* after := tensor_toString toBool in
  let content := content ++ "toBool:" ++ Js.nl ++ "Before: " ++ before ++ Js.nl
                         ++ "After: " ++ after ++ Js.nl ++ Js.nl in
  (* Reshape operations *)
  let* reshapeTensor := tf_tensor in
  let* reshaped := tensor_op reshapeTensor in
  let* before := tensor_toString reshapeTensor in
  let* after := tensor_toString reshaped in
  let content := content ++ "reshape:" ++ Js.nl ++ "Before: " ++ before ++ Js.nl
                         ++ "After: " ++ after ++ Js.nl ++ Js.nl in
  let* reshapeAsTensor := tf_tensor in
  let* targetShape := tf_tensor in
  let* reshapeAs := tensor_op reshapeAsTensor in
  let* before := tensor_toString reshapeAsTensor in
  let* target := tensor_toString targetShape in
  let* after := tensor_toString reshapeAs in
  let content := content ++ "reshapeAs:" ++ Js.nl ++ "Before: " ++ before ++ Js.nl
                         ++ "Target: " ++ target ++ Js.nl
                         ++ "After: " ++ after ++ Js.nl ++ Js.nl in
  (* Memory management *)
  let* disposeTensor := tf_tensor in
  let* before := tensor_toString disposeTensor in
  let content := content ++ "dispose:" ++ Js.nl ++ "Before: " ++ before ++ Js.nl in
  tensor_dispose disposeTensor ;;
  let content := content ++ "After: Memory freed" ++ Js.nl ++ Js.nl in
  (* Update chart *)
  updateChart reshapeAs ;;
  (* Clean up *)
  safeDispose [Some boolTensor; Some toFloat; Some floatTensor; Some toInt;
               Some intTensor; Some toBool; Some reshapeTensor; Some reshaped;
               Some reshapeAsTensor; Some targetShape; Some reshapeAs] ;;
  let* endTime := performance_now in
  let content := content ++ "Execution time: "
                         ++ toFixed (endTime - startTime)%float 2 ++ "ms" ++ Js.nl in
  let* bytes := tf_memory_numBytes in
  let content := content ++ "Memory usage: "
                         ++ toFixed (bytes / 1024)%float 2 ++ " KB" in
  addResult "Data Type Conversions" content.

(** [runDataType()]. *)
Definition runDataType : M unit :=
  let* startTime := performance_now in
  try_catch (runDataType_try startTime)
    (fun error =>
       addResult "Error" ("Error in data type conversions: " ++ Js.message error)).

(** The [try] block of [runMathematical()]. *)
Definition runMathematical_try (startTime : Js.number) : M unit :=
  let content := "=== MATHEMATICAL OPERATIONS ===" ++ Js.nl ++ Js.nl in
  (* Basic mathematical operations *)
  let* mathTensor := tf_tensor in
  let* cumsum := tensor_op mathTensor in
  let* before := tensor_toString mathTensor in
  let* after := tensor_toString cumsum in
  let content := content ++ "cumsum:" ++ Js.nl ++ "Before: " ++ before ++ Js.nl
                         ++ "After: " ++ after ++ Js.nl ++ Js.nl in
  let* absTensor := tf_tensor in
  let* absResult := tensor_op absTensor in
  let* before := tensor_toString absTensor in
  let* after := tensor_toString absResult in
  let content := content ++ "abs:" ++ Js.nl ++ "Before: " ++ before ++ Js.nl
                         ++ "After: " ++ after ++ Js.nl ++ Js.nl in
  let* sqrtTensor := tf_tensor in
  let* sqrtResult := tensor_op sqrtTensor in
  let* before := tensor_toString sqrtTensor in
  let* after := tensor_toString sqrtResult in
  let content := content ++ "sqrt:" ++ Js.nl ++ "Before: " ++ before ++ Js.nl
                         ++ "After: " ++ after ++ Js.nl ++ Js.nl in
  let* squareTensor := tf_tensor in
  let* squareResult := tensor_op squareTensor in
  let* before := tensor_toString squareTensor in
  let* after := tensor_toString squareResult in
  let content := content ++ "square:" ++ Js.nl ++ "Before: " ++ before ++ Js.nl
                         ++ "After: " ++ after ++ Js.nl ++ Js.nl in
  (* Statistical operations *)
  let* statsTensor := tf_tensor in
  let* mean := tensor_op statsTensor in
  let* max_ := tensor_op statsTensor in
  let* min_ := tensor_op statsTensor in
  let* sum_ := tensor_op statsTensor in
  let* stats_text := tensor_toString statsTensor in
  let* mean_text := tensor_toString mean in
  let* max_text := tensor_toString max_ in
  let* min_text := tensor_toString min_ in
  let* sum_text := tensor_toString sum_ in
  let content := content ++ "Statistics:" ++ Js.nl ++ "Tensor: " ++ stats_text ++ Js.nl
                         ++ "Mean: " ++ mean_text ++ Js.nl
                         ++ "Max: " ++ max_text ++ Js.nl
                         ++ "Min: " ++ min_text ++ Js.nl
                         ++ "Sum: " ++ sum_text ++ Js.nl ++ Js.nl in
  (* Element-wise operations *)
  let* tensorA := tf_tensor in
  let* tensorB := tf_tensor in
  let* add := tensor_op2 tensorA tensorB in
  let* sub := tensor_op2 tensorA tensorB in
  let* mul := tensor_op2 tensorA tensorB in
  let* div := tensor_op2 tensorA tensorB in
  let* a_text := tensor_toString tensorA in
  let* b_text := tensor_toString tensorB in
  let* add_text := tensor_toString add in
  let* sub_text := tensor_toString sub in
  let* mul_text := tensor_toString mul in
  let* div_text := tensor_toString div in
  let content := content ++ "Element-wise Operations:" ++ Js.nl
                         ++ "A: " ++ a_text ++ Js.nl
                         ++ "B: " ++ b_text ++ Js.nl
                         ++ "Add: " ++ add_text ++ Js.nl
                         ++ "Subtract: " ++ sub_text ++ Js.nl
                         ++ "Multiply: " ++ mul_text ++ Js.nl
                         ++ "Divide: " ++ div_text ++ Js.nl ++ Js.nl in
  (* Update chart *)
  updateChart statsTensor ;;
  (* Clean up *)
  safeDispose [Some mathTensor; Some cumsum; Some absTensor; Some absResult;
               Some sqrtTensor; Some sqrtResult; Some squareTensor;
               Some squareResult; Some statsTensor; Some mean; Some max_;
               Some min_; Some sum_; Some tensorA; Some tensorB; Some add;
               Some sub; Some mul; Some div] ;;
  let* endTime := performance_now in
  let content := content ++ "Execution time: "
                         ++ toFixed (endTime - startTime)%float 2 ++ "ms" ++ Js.nl in
  let* bytes := tf_memory_numBytes in
  let content := content ++ "Memory usage: "
                         ++ toFixed (bytes / 1024)%float 2 ++ " KB" in
  addResult "Mathematical Operations" content.

(** [runMathematical()]. *)
Definition runMathematical : M unit :=
  let* startTime := performance_now in
  try_catch (runMathematical_try startTime)
    (fun error =>
       addResult "Error" ("Error in mathematical operations: " ++ Js.message error)).

(** [for (let i = 0; i < 10; i++) tensors.push(tf.randomNormal([100, 100]))]. *)
Fixpoint create_tensors (count : nat) (tensors_ : list nat) : M (list nat) :=
  match count with
  | O => ret tensors_
  | S k =>
      let* t := tf_tensor in
      create_tensors k (tensors_ ++ [t])
  end.

(** [tensors.forEach((tensor, index) => { tensor.dispose(); content += ... })]. *)
Fixpoint dispose_each (tensors_ : list nat) (index : nat) (content : string)
  : M string :=
  match tensors_ with
  | [] => ret content
  | tensor :: rest =>
      tensor_dispose tensor ;;
      dispose_each rest (S index)
        (content ++ "Disposed tensor " ++ numToString (Js.of_nat (index + 1)) ++ Js.nl)
  end.

(** The [try] block of [runMemory()]. *)
Definition runMemory_try (startTime : Js.number) : M unit :=
  let content := "=== MEMORY MANAGEMENT ===" ++ Js.nl ++ Js.nl in
  let* initialMemory := tf_memory_numBytes in
  let content := content ++ "Initial memory: "
                         ++ toFixed (initialMemory / 1024)%float 2 ++ " KB"
                         ++ Js.nl ++ Js.nl in
  (* Create multiple tensors *)
  let* tensors_ := create_tensors 10 [] in
  let* afterCreation := tf_memory_numBytes in
  let content := content ++ "After creating 10 tensors: "
                         ++ toFixed (afterCreation / 1024)%float 2 ++ " KB" ++ Js.nl in
  let content := content ++ "Memory increase: "
                         ++ toFixed ((afterCreation - initialMemory) / 1024)%float 2
                         ++ " KB" ++ Js.nl ++ Js.nl in
  (* Dispose tensors individually *)
  let* content := dispose_each tensors_ 0 content in
  let* afterDispose := tf_memory_numBytes in
  let content := content ++ "After disposing tensors: "
                         ++ toFixed (afterDispose / 1024)%float 2 ++ " KB"
                         ++ Js.nl ++ Js.nl in
  (* Create more tensors and use safeDispose *)
  let* more1 := tf_tensor in       (* tf.randomNormal([50, 50]) *)
  let* more2 := tf_tensor in       (* tf.randomUniform([50, 50]) *)
  let* more3 := tf_tensor in       (* tf.zeros([50, 50]) *)
  let* more4 := tf_tensor in       (* tf.ones([50, 50]) *)
  let moreTensors := [Some more1; Some more2; Some more3; Some more4] in
  let* afterMoreCreation := tf_memory_numBytes in
  let content := content ++ "After creating more tensors: "
                         ++ toFixed (afterMoreCreation / 1024)%float 2 ++ " KB"
                         ++ Js.nl ++ Js.nl in
  (* Use safeDispose *)
  safeDispose moreTensors ;;
  let content := content ++ "Used safeDispose to clean up tensors" ++ Js.nl in
  let* afterSafeDispose := tf_memory_numBytes in
  let content := content ++ "After safeDispose: "
                         ++ toFixed (afterSafeDispose / 1024)%float 2 ++ " KB"
                         ++ Js.nl ++ Js.nl in
  (* Clear all memory *)
  memory_clear ;;
  let* afterClear := tf_memory_numBytes in
  let content := content ++ "After clearing all memory: "
                         ++ toFixed (afterClear / 1024)%float 2 ++ " KB"
                         ++ Js.nl ++ Js.nl in
  let* endTime := performance_now in
  let content := content ++ "Execution time: "
                         ++ toFixed (endTime - startTime)%float 2 ++ "ms" ++ Js.nl in
  let* bytes := tf_memory_numBytes in
  let content := content ++ "Final memory usage: "
                         ++ toFixed (bytes / 1024)%float 2 ++ " KB" in
  addResult "Memory Management" content.

(** [runMemory()]. *)
Definition runMemory : M unit :=
  let* startTime := performance_now in
  try_catch (runMemory_try startTime)
    (fun error =>
       addResult "Error" ("Error in memory management: " ++ Js.message error)).

(** The operation [runAdvanced] hands to [benchmark]. *)
Definition benchmarked_operation : M unit :=
  let* tempTensor := tf_tensor in             (* tf.randomNormal([100, 100]) *)
  let* squared := tensor_op tempTensor in     (* tempTensor.square() *)
  let* result := tensor_op squared in         (* .mean() *)
  tensor_dispose tempTensor ;;
  tensor_dispose result.

(** The [try] block of [runAdvanced()]. *)
Definition runAdvanced_try (startTime : Js.number) : M unit :=
  let content := "=== ADVANCED OPERATIONS ===" ++ Js.nl ++ Js.nl in
  (* Data extraction *)
  let* dataTensor := tf_tensor in
  let* dataSync := tensor_dataSync dataTensor in
  let* arraySync := tensor_dataSync dataTensor in
  let* text := tensor_toString dataTensor in
  let content := content ++ "Data Extraction:" ++ Js.nl ++ "Tensor: " ++ text ++ Js.nl
                         ++ "dataSync: [" ++ tensorData dataSync ++ "]" ++ Js.nl
                         ++ "arraySync: " ++ tensorArrayJson arraySync
                         ++ Js.nl ++ Js.nl in
  (* Cloning *)
  let* originalTensor := tf_tensor in
  let* clonedTensor := tensor_op originalTensor in
  let* original_text := tensor_toString originalTensor in
  let* cloned_text := tensor_toString clonedTensor in
  let content := content ++ "Cloning:" ++ Js.nl ++ "Original: " ++ original_text ++ Js.nl
                         ++ "Cloned: " ++ cloned_text ++ Js.nl ++ Js.nl in
  (* Random tensor generation *)
  let* randomNormal := createRandomTensor "normal" in
  let* randomUniform := createRandomTensor "uniform" in
  let* normal_text := tensor_toString randomNormal in
  let* uniform_text := tensor_toString randomUniform in
  let content := content ++ "Random Tensors:" ++ Js.nl ++ "Normal: " ++ normal_text ++ Js.nl
                         ++ "Uniform: " ++ uniform_text ++ Js.nl ++ Js.nl in
  (* Tensor comparison *)
  let* tensor1 := tf_tensor in
  let* tensor2 := tf_tensor in
  let* comparison := compareTensors tensor1 tensor2 in
  let* text1 := tensor_toString tensor1 in
  let* text2 := tensor_toString tensor2 in
  let content := content ++ "Tensor Comparison:" ++ Js.nl
                         ++ "Tensor1: " ++ text1 ++ Js.nl
                         ++ "Tensor2: " ++ text2 ++ Js.nl
                         ++ "MSE: " ++ toFixed (meanSquaredError comparison) 4 ++ Js.nl
                         ++ "MAE: " ++ toFixed (meanAbsoluteError comparison) 4 ++ Js.nl
                         ++ "Max Diff: " ++ toFixed (maxDifference comparison) 4 ++ Js.nl
                         ++ "Shapes Match: "
                         ++ (if shapesMatch comparison then "true" else "false")
                         ++ Js.nl ++ Js.nl in
  (* Performance benchmarking *)
  let* benchmarkResult := benchmark benchmarked_operation 5 in
  let content := content ++ "Performance Benchmark:" ++ Js.nl
                         ++ "Average Time: "
                         ++ toFixed (b_averageTime benchmarkResult) 2 ++ "ms" ++ Js.nl
                         ++ "Min Time: "
                         ++ toFixed (minTime benchmarkResult) 2 ++ "ms" ++ Js.nl
                         ++ "Max Time: "
                         ++ toFixed (maxTime benchmarkResult) 2 ++ "ms" ++ Js.nl
                         ++ "Memory Delta: "
                         ++ toFixed (b_memoryDelta benchmarkResult / 1024)%float 2
                         ++ " KB" ++ Js.nl ++ Js.nl in
  (* Update chart *)
  updateChart randomNormal ;;
  (* Clean up *)
  safeDispose [Some dataTensor; Some originalTensor; Some clonedTensor;
               Some randomNormal; Some randomUniform; Some tensor1; Some tensor2] ;;
  let* endTime := performance_now in
  let content := content ++ "Execution time: "
                         ++ toFixed (endTime - startTime)%float 2 ++ "ms" ++ Js.nl in
  let* bytes := tf_memory_numBytes in
  let content := content ++ "Memory usage: "
                         ++ toFixed (bytes / 1024)%float 2 ++ " KB" in
  addResult "Advanced Operations" content.

(** [runAdvanced()]. *)
Definition runAdvanced : M unit :=
  let* startTime := performance_now in
  try_catch (runAdvanced_try startTime)
    (fun error =>
       addResult "Error" ("Error in advanced operations: " ++ Js.message error)).

(** The page-level [clearResults()]. *)
Definition clearResults : M unit :=
  modify (with_demo (set_results [])) ;;
  updateResults "".

(** The page-level [exportResults()]. *)
Definition result_json (r : ResultEntry) : Json :=
  JObj [("title", JStr (title r)); ("content", JStr (content r));
        ("timestamp", JDate (r_timestamp r))].

Definition exportResults : M unit :=
  let* s := get in
  let data := JArr (map result_json (results (tensorDemo s))) in
  modify (with_browser (fun b =>
    set_downloads (downloads b ++
      [mkDownload (Stringified data) "application/json"
                  "tensor-operations-results.json"]) b)).

(* ================================================================== *)
(** * export-utils.js: class ExportUtils *)
(* ================================================================== *)

(** The performance data handed to the export functions: an object that
    may or may not carry each of the properties the monitor's [exportData]
    writes. *)
Record PerformanceData := mkPerformanceData {
  pd_summary : option Summary;
  pd_metrics : option (list Metric);
  pd_exportTimestamp : option Js.Date
}.

Record ReportSummary := mkReportSummary {
  totalResults : nat;
  rs_totalOperations : nat;
  rs_averageExecutionTime : Js.number
}.

Record Report := mkReport {
  rp_title : string;
  rp_timestamp : Js.Date;
  rp_results : list ResultEntry;
  rp_performance : option PerformanceData;
  rp_summary : ReportSummary
}.

(** What [JSON.stringify] is given. *)
Definition metric_json (m : Metric) : Json :=
  JObj [("operation", JStr (operation m));
        ("executionTime", JNum (executionTime m));
        ("memoryBefore", JNum (memoryBefore m));
        ("memoryAfter", JNum (memoryAfter m));
        ("memoryDelta", JNum (memoryDelta m));
        ("timestamp", JDate (timestamp m))].

Definition operation_json (o : OperationInfo) : Json :=
  JObj [("operation", JStr (op_operation o));
        ("executionTime", JNum (op_executionTime o));
        ("memoryDelta", JNum (op_memoryDelta o));
        ("timestamp", JDate (op_timestamp o))].

Definition summary_json (sm : Summary) : Json :=
  JObj ([("totalOperations", JNum (Js.of_nat (totalOperations sm)));
         ("averageExecutionTime", JNum (averageExecutionTime sm));
         ("totalMemoryUsed", JNum (totalMemoryUsed sm));
         ("peakMemoryUsage", JNum (peakMemoryUsage sm))]
        ++ match operations sm with
           | Some ops => [("operations", JArr (map operation_json ops))]
           | None => []
           end).

Definition optional_field {A} (name : string) (to_json : A -> Json)
    (v : option A) : list (string * Json) :=
  match v with
  | Some a => [(name, to_json a)]
  | None => []
  end.

Definition performance_json (pd : PerformanceData) : Json :=
  JObj (optional_field "summary" summary_json (pd_summary pd)
        ++ optional_field "metrics" (fun ms => JArr (map metric_json ms)) (pd_metrics pd)
        ++ optional_field "exportTimestamp" JDate (pd_exportTimestamp pd)).

Definition report_json (r : Report) : Json :=
  JObj [("title", JStr (rp_title r));
        ("timestamp", JDate (rp_timestamp r));
        ("results", JArr (map result_json (rp_results r)));
        ("performance", match rp_performance r with
                        | Some pd => performance_json pd
                        | None => JNull
                        end);
        ("summary",
         JObj [("totalResults", JNum (Js.of_nat (totalResults (rp_summary r))));
               ("totalOperations", JNum (Js.of_nat (rs_totalOperations (rp_summary r))));
               ("averageExecutionTime", JNum (rs_averageExecutionTime (rp_summary r)))])].

(** [downloadFile(blob, filename)]; a blob is its payload and its type. *)
Definition downloadFile (blob : Payload * string) (filename : string) : M unit :=
  modify (with_browser (fun b =>
    set_downloads (downloads b ++ [mkDownload (fst blob) (snd blob) filename]) b)).

(** [exportJSON(data, filename)]. *)
Definition exportJSON (data : Json) (filename : string) : M unit :=
  let dataBlob := (Stringified data, "application/json") in
  downloadFile dataBlob filename.

(** A cell of a row given to [exportCSV]. *)
Inductive CsvValue :=
| CsvString (s : string)
| CsvNumber (x : Js.number)
| CsvDate (d : Js.Date).

Definition dquote : string := String (ascii_of_nat 34) EmptyString.

(** [row[header]] rendered: strings are quoted, other values are joined as
    they print; a missing property prints as nothing. *)
Definition csv_cell (row : list (string * CsvValue)) (header : string) : string :=
  match find (fun kv => String.eqb (fst kv) header) row with
  | Some (_, CsvString v) => dquote ++ v ++ dquote
  | Some (_, CsvNumber x) => numToString x
  | Some (_, CsvDate d) => dateToString d
  | None => ""
  end.

(** [exportCSV(data, filename)]. *)
Definition exportCSV (data : list (list (string * CsvValue))) (filename : string)
  : M unit :=
  match data with
  | [] => console_error "No data to export"
  | first :: _ =>
      let headers := map fst first in
      let csvContent :=
        Js.join_with Js.nl
          (Js.join_with "," headers
           :: map (fun row => Js.join_with "," (map (csv_cell row) headers)) data) in
      let dataBlob := (Text csvContent, "text/csv") in
      downloadFile dataBlob filename
  end.

(** Reading a property of [undefined]. *)
Definition type_error {A} (property : string) : M A :=
  throw (Js.mkError ("Cannot read properties of undefined (reading '"
                     ++ property ++ "')")).

(** [exportPerformanceData(performanceData, format)]. *)
Definition exportPerformanceData (performanceData : PerformanceData)
    (format : string) : M unit :=
  let* now := new_Date in
  let timestamp_ := Js.replace_colon_dot (toISOString now) in
  if String.eqb format "csv" then
    match pd_metrics performanceData with
    | None => type_error "map"
    | Some ms =>
        let csvData := map (fun metric =>
          [("operation", CsvString (operation metric));
           ("executionTime", CsvNumber (executionTime metric));
           ("memoryBefore", CsvNumber (memoryBefore metric));
           ("memoryAfter", CsvNumber (memoryAfter metric));
           ("memoryDelta", CsvNumber (memoryDelta metric));
           ("timestamp", CsvDate (timestamp metric))]) ms in
        exportCSV csvData ("performance-" ++ timestamp_ ++ ".csv")
    end
  else
    exportJSON (performance_json performanceData)
               ("performance-" ++ timestamp_ ++ ".json").

(** The performance block of the HTML report. *)
Definition html_performance (performance : option PerformanceData) : M string :=
  match performance with
  | Some pd =>
      match pd_summary pd with
      | None => type_error "totalOperations"
      | Some sm =>
          ret (Js.nl
            ++ "        <div class=" ++ dquote ++ "performance" ++ dquote ++ ">" ++ Js.nl
            ++ "            <h3>Performance Summary</h3>" ++ Js.nl
            ++ "            <p>Total Operations: "
            ++ numToString (Js.of_nat (totalOperations sm)) ++ "</p>" ++ Js.nl
            ++ "            <p>Average Execution Time: "
            ++ toFixed (averageExecutionTime sm) 2 ++ "ms</p>" ++ Js.nl
            ++ "            <p>Peak Memory Usage: "
            ++ toFixed (peakMemoryUsage sm / 1024)%float 2 ++ " KB</p>" ++ Js.nl
            ++ "        </div>" ++ Js.nl
            ++ "    ")
      end
  | None => ret ""
  end.

(** The head and header block of the HTML report. *)
Definition html_header (report : Report) : string :=
  Js.nl
  ++ "<!DOCTYPE html>" ++ Js.nl
  ++ "<html>" ++ Js.nl
  ++ "<head>" ++ Js.nl
  ++ "    <title>" ++ rp_title report ++ "</title>" ++ Js.nl
  ++ "    <style>" ++ Js.nl
  ++ "        body { font-family: Arial, sans-serif; margin: 20px; }" ++ Js.nl
  ++ "        .header { background: #f0f0f0; padding: 20px; border-radius: 5px; }" ++ Js.nl
  ++ "        .result { margin: 20px 0; padding: 15px; border: 1px solid #ddd; border-radius: 5px; }" ++ Js.nl
  ++ "        .performance { background: #e8f4f8; padding: 15px; border-radius: 5px; }" ++ Js.nl
  ++ "        pre { background: #f5f5f5; padding: 10px; border-radius: 3px; overflow-x: auto; }" ++ Js.nl
  ++ "    </style>" ++ Js.nl
  ++ "</head>" ++ Js.nl
  ++ "<body>" ++ Js.nl
  ++ "    <div class=" ++ dquote ++ "header" ++ dquote ++ ">" ++ Js.nl
  ++ "        <h1>" ++ rp_title report ++ "</h1>" ++ Js.nl
  ++ "        <p>Generated: " ++ dateToString (rp_timestamp report) ++ "</p>" ++ Js.nl
  ++ "        <p>Total Results: "
  ++ numToString (Js.of_nat (totalResults (rp_summary report))) ++ "</p>" ++ Js.nl
  ++ "        <p>Total Operations: "
  ++ numToString (Js.of_nat (rs_totalOperations (rp_summary report))) ++ "</p>" ++ Js.nl
  ++ "        <p>Average Execution Time: "
  ++ toFixed (rs_averageExecutionTime (rp_summary report)) 2 ++ "ms</p>" ++ Js.nl
  ++ "    </div>" ++ Js.nl
  ++ "    " ++ Js.nl
  ++ "    ".

(** One result block of the HTML report. *)
Definition html_result (result : ResultEntry) : string :=
  Js.nl
  ++ "        <div class=" ++ dquote ++ "result" ++ dquote ++ ">" ++ Js.nl
  ++ "            <h3>" ++ title result ++ "</h3>" ++ Js.nl
  ++ "            <p>Timestamp: " ++ dateToString (r_timestamp result) ++ "</p>" ++ Js.nl
  ++ "            <pre>" ++ content result ++ "</pre>" ++ Js.nl
  ++ "        </div>" ++ Js.nl
  ++ "    ".

(** The whole HTML template, around its performance block. *)
Definition html_document (report : Report) (performance : string) : string :=
  html_header report
  ++ Js.join (map html_result (rp_results report))
  ++ Js.nl ++ "    " ++ Js.nl ++ "    "
  ++ performance
  ++ Js.nl ++ "</body>" ++ Js.nl ++ "</html>".

(** [exportHTMLReport(report, filename)]. *)
Definition exportHTMLReport (report : Report) (filename : string) : M unit :=
  let* performance := html_performance (rp_performance report) in
  let htmlContent := html_document report performance in
  let dataBlob := (Text htmlContent, "text/html") in
  downloadFile dataBlob filename.

(** The performance block of the text report. *)
Definition text_performance (performance : option PerformanceData) : M string :=
  match performance with
  | Some pd =>
      match pd_summary pd with
      | None => type_error "totalOperations"
      | Some sm =>
          ret ("=== PERFORMANCE SUMMARY ===" ++ Js.nl
            ++ "Total Operations: "
            ++ numToString (Js.of_nat (totalOperations sm)) ++ Js.nl
            ++ "Average Execution Time: "
            ++ toFixed (averageExecutionTime sm) 2 ++ "ms" ++ Js.nl
            ++ "Peak Memory Usage: "
            ++ toFixed (peakMemoryUsage sm / 1024)%float 2 ++ " KB" ++ Js.nl)
      end
  | None => ret ""
  end.

Definition text_header (report : Report) : string :=
  rp_title report ++ Js.nl
  ++ "Generated: " ++ dateToString (rp_timestamp report) ++ Js.nl
  ++ "Total Results: "
  ++ numToString (Js.of_nat (totalResults (rp_summary report))) ++ Js.nl
  ++ "Total Operations: "
  ++ numToString (Js.of_nat (rs_totalOperations (rp_summary report))) ++ Js.nl
  ++ "Average Execution Time: "
  ++ toFixed (rs_averageExecutionTime (rp_summary report)) 2 ++ "ms" ++ Js.nl ++ Js.nl.

Definition text_result (result : ResultEntry) : string :=
  "=== " ++ title result ++ " ===" ++ Js.nl
  ++ "Timestamp: " ++ dateToString (r_timestamp result) ++ Js.nl
  ++ content result ++ Js.nl ++ Js.nl.

(** The text report, before its performance block. *)
Definition text_document (report : Report) : string :=
  let textContent := text_header report in
  fold_left (fun text result => text ++ text_result result)
            (rp_results report) textContent.

(** [exportTextReport(report, filename)]. *)
Definition exportTextReport (report : Report) (filename : string) : M unit :=
  let textContent := text_document report in
  let* performance := text_performance (rp_performance report) in
  let textContent := textContent ++ performance in
  let dataBlob := (Text textContent, "text/plain") in
  downloadFile dataBlob filename.

(** [exportReport(results, performanceData, format)]. *)
Definition exportReport (results : list ResultEntry)
    (performanceData : option PerformanceData) (format : string) : M unit :=
  let* now := new_Date in
  let timestamp_ := Js.replace_colon_dot (toISOString now) in
  let* stamp := new_Date in
  let totalOperations_ :=
    fold_left (fun sum r => sum + Js.count_matches "Execution time:" (content r))
              results 0 in
  let report averageExecutionTime :=
    mkReport "TensorFlow.js Learning Platform Report" stamp results performanceData
             (mkReportSummary (List.length results) totalOperations_
                              averageExecutionTime) in
  let* report :=
    match performanceData with
    | Some pd =>
        match pd_summary pd with
        | Some sm => ret (report (averageExecutionTime sm))
        | None => type_error "averageExecutionTime"
        end
    | None => ret (report 0%float)
    end in
  if String.eqb format "html" then
    exportHTMLReport report ("report-" ++ timestamp_ ++ ".html")
  else if String.eqb format "txt" then
    exportTextReport report ("report-" ++ timestamp_ ++ ".txt")
  else
    exportJSON (report_json report) ("report-" ++ timestamp_ ++ ".json").

(* ================================================================== *)
(** * Vocabulary of the statements *)
(* ================================================================== *)

(** The arguments of one [recordMetric] call. *)
Record RecordCall := mkCall {
  c_operation : string;
  c_executionTime : Js.number;
  c_memoryBefore : Js.number;
  c_memoryAfter : Js.number
}.

Definition record (c : RecordCall) : M unit :=
  recordMetric (c_operation c) (c_executionTime c) (c_memoryBefore c) (c_memoryAfter c).

(** A sequence of [recordMetric] calls. *)
Definition record_all (calls : list RecordCall) : M unit :=
  forEach record calls.

(** The metric a call makes when the clock has been read [read] times. *)
Definition metric_of (c : RecordCall) (read : nat) : Metric :=
  mkMetric (c_operation c) (c_executionTime c) (c_memoryBefore c) (c_memoryAfter c)
           (c_memoryAfter c - c_memoryBefore c)%float (wallClock read).

(** The metrics of a sequence of calls, in call order. *)
Fixpoint recorded (calls : list RecordCall) (read : nat) : list Metric :=
  match calls with
  | [] => []
  | c :: rest => metric_of c read :: recorded rest (S read)
  end.

(** The five demos of the page. *)
Inductive Demo := TensorShape | DataType | Mathematical | Memory | Advanced.

(** The click handler of a demo, and its [try] block. *)
Definition run_demo (d : Demo) : M unit :=
  match d with
  | TensorShape => runTensorShape
  | DataType => runDataType
  | Mathematical => runMathematical
  | Memory => runMemory
  | Advanced => runAdvanced
  end.

Definition demo_try (d : Demo) (startTime : Js.number) : M unit :=
  match d with
  | TensorShape => runTensorShape_try startTime
  | DataType => runDataType_try startTime
  | Mathematical => runMathematical_try startTime
  | Memory => runMemory_try startTime
  | Advanced => runAdvanced_try startTime
  end.

(** The title a demo logs its narrative under, and the start of the text
    its [catch] block logs. *)
Definition demo_title (d : Demo) : string :=
  match d with
  | TensorShape => "Shape Operations"
  | DataType => "Data Type Conversions"
  | Mathematical => "Mathematical Operations"
  | Memory => "Memory Management"
  | Advanced => "Advanced Operations"
  end.

Definition demo_error_prefix (d : Demo) : string :=
  match d with
  | TensorShape => "Error in shape operations: "
  | DataType => "Error in data type conversions: "
  | Mathematical => "Error in mathematical operations: "
  | Memory => "Error in memory management: "
  | Advanced => "Error in advanced operations: "
  end.

(** How often the steps of a demo read the clock before its end time is
    taken: only the benchmark of the advanced demo does, twice in each of
    its five iterations. *)
Definition demo_clock_reads (d : Demo) : nat :=
  match d with
  | Advanced => 10
  | _ => 0
  end.

(** The two lines every narrative ends with. *)
Definition narrative_with_closing (d : Demo) (narrative : string)
    (elapsed bytes : Js.number) : string :=
  (narrative ++ "Execution time: " ++ toFixed elapsed 2 ++ "ms" ++ Js.nl)
  ++ match d with
     | Memory => "Final memory usage: "
     | _ => "Memory usage: "
     end
  ++ toFixed (bytes / 1024)%float 2 ++ " KB".

(** What can happen on the page: the monitor's methods, the timer firing,
    and the demo's click handlers. *)
Inductive Action :=
| DoStart
| DoStop
| DoTick
| DoRecord (c : RecordCall)
| DoSummary
| DoClear
| DoRun (d : Demo)
| DoClearResults
| DoExportResults.

Definition perform (a : Action) : M unit :=
  match a with
  | DoStart => start
  | DoStop => stop
  | DoTick => updateDisplay
  | DoRecord c => record c
  | DoSummary => getSummary ;; ret tt
  | DoClear => clear
  | DoRun d => run_demo d
  | DoClearResults => clearResults
  | DoExportResults => exportResults
  end.

(** The page right after its scripts ran: a new monitor, no timer scheduled,
    and timer ids start above zero. *)
Definition loaded (s : Page) : Prop :=
  performanceMonitor s = fresh_monitor
  /\ intervals (browser s) = []
  /\ nextTimer (browser s) <> 0.

Inductive reachable : Page -> Prop :=
| reachable_loaded (s : Page) : loaded s -> reachable s
| reachable_step (s : Page) (a : Action) :
    reachable s -> reachable (exec (perform a) s).

(** What the sampler's lifecycle is about: the flag, the stored id and the
    browser's timers. *)
Definition timer_view (s : Page)
  : bool * option nat * list nat * nat :=
  (isMonitoring (performanceMonitor s), updateInterval (performanceMonitor s),
   intervals (browser s), nextTimer (browser s)).

(** The array after [push] and the capacity check of [recordMetric]. *)
Definition keep_last_100 (ms : list Metric) : list Metric :=
  if Nat.ltb 100 (List.length ms) then tl ms else ms.

(** The flag is set exactly when one timer is scheduled, and that timer is
    the stored id. *)
Definition timers_ok (v : bool * option nat * list nat * nat) : Prop :=
  let '(monitoring, stored, scheduled, next) := v in
  next <> 0
  /\ ((monitoring = false /\ stored = None /\ scheduled = [])
      \/ (exists id, id <> 0 /\ id < next /\ monitoring = true
                     /\ stored = Some id /\ scheduled = [id])).

(** The result log and the monitor. *)
Definition record_view (s : Page) : list ResultEntry * PerformanceMonitor :=
  (results (tensorDemo s), performanceMonitor s).

(** What the demo runner must not disturb while its steps run: the result
    log, the monitor, and the clock's read count. *)
Definition log_view (s : Page) : list ResultEntry * PerformanceMonitor * nat :=
  (results (tensorDemo s), performanceMonitor s, clockReads (browser s)).

(** The tensors the engine has registered. *)
Definition tensor_view (s : Page) : list TensorCell := tensors (tf s).

(** A tensor that was created and never disposed. *)
Definition live_cell : TensorCell := mkCell false 0.

(** The report object [exportReport] builds when it is given no performance
    data, at a page whose clock has been read [read] times. *)
Definition plain_report (results : list ResultEntry) (read : nat) : Report :=
  mkReport "TensorFlow.js Learning Platform Report" (wallClock (S read)) results None
    (mkReportSummary (List.length results)
       (fold_left (fun sum r => sum + Js.count_matches "Execution time:" (content r))
                  results 0)
       0%float).

(** The timestamp the export functions put into file names. *)
Definition file_stamp (s : Page) : string :=
  Js.replace_colon_dot (toISOString (wallClock (clockReads (browser s)))).

(** A statement run from a page that satisfies [P] either completes in a
    page that satisfies [Q] or throws in a page that satisfies [E]. *)
Definition triple {A} (P : Page -> Prop) (m : M A)
    (Q : A -> Page -> Prop) (E : Js.Error -> Page -> Prop) : Prop :=
  forall s, P s ->
    match m s with
    | (Normal a, s') => Q a s'
    | (Throw e, s') => E e s'
    end.

(** A statement that leaves a part of the page as it found it, however it
    completes. *)
Definition keeps {A X} (view : Page -> X) (m : M A) : Prop :=
  forall s, view (exec m s) = view s.

(** What a [try] block of a demo does to the result log and the monitor,
    started when the clock has been read [n0] times and taking its end time
    at read [n1]: it appends the narrative with its two closing lines under
    the demo's title, or throws with the log and the monitor as they were. *)
Definition demo_try_triple (d : Demo) (startTime : Js.number)
    (rs0 : list ResultEntry) (pm0 : PerformanceMonitor) (n0 n1 : nat) : Prop :=
  triple (fun s => log_view s = (rs0, pm0, n0))
    (demo_try d startTime)
    (fun _ s' =>
       exists narrative bytes,
         results (tensorDemo s')
         = (rs0 ++ [mkResult (demo_title d)
                      (narrative_with_closing d narrative
                         (perfClock n1 - startTime)%float bytes)
                      (wallClock (S n1))])%list
         /\ performanceMonitor s' = pm0)
    (fun _ s' => record_view s' = (rs0, pm0)).

(** A tensor that was disposed by exactly one [dispose] call. *)
Definition released_cell : TensorCell := mkCell true 1.

(** What [safeDispose] does to the cells at the given positions. *)
Fixpoint release (positions : list nat) (cells : list TensorCell)
  : list TensorCell :=
  match positions with
  | [] => cells
  | j :: rest =>
      release rest
        (match nth_error cells j with
         | Some c => if isDisposed c then cells else update_nth j dispose_cell cells
         | None => cells
         end)
  end.

(** The tensors of a demo invocation that started with the engine holding
    [before]: the handles count on from [length before]. *)
Definition handles_from (before : list TensorCell) (positions : list nat)
  : list (option nat) :=
  map (fun j => Some (List.length before + j)) positions.

(** Reading a property of an object. *)
Definition json_field (name : string) (v : Json) : option Json :=
  match v with
  | JObj fields =>
      match find (fun kv => String.eqb (fst kv) name) fields with
      | Some (_, x) => Some x
      | None => None
      end
  | _ => None
  end.

(** [s.includes(sub)]. *)
Fixpoint includes (sub s : string) : bool :=
  String.prefix sub s ||
  match s with
  | EmptyString => false
  | String _ rest => includes sub rest
  end.

(* ================================================================== *)
(** * The rest of the scripts *)
(* ================================================================== *)

(** [exportData()] of the monitor: the object it hands to
    [JSON.stringify(..., null, 2)]. *)
Definition exportData : M Json :=
  let* summary := getSummary in
  let* ms := this_metrics in
  let* now := new_Date in
  ret (JObj [("summary", summary_json summary);
             ("metrics", JArr (map metric_json ms));
             ("exportTimestamp", JDate now)]).


(** ** Vocabulary of the further statements *)

(** Is the tensor [i] among the arguments of a [safeDispose] call? *)
Definition listed (i : nat) (handles : list (option nat)) : bool :=
  existsb (fun h => match h with Some t => Nat.eqb t i | None => false end) handles.

(** The metric's delta is the difference of its two samples. *)
Definition metric_consistent (m : Metric) : Prop :=
  memoryDelta m = (memoryAfter m - memoryBefore m)%float.

(** The recorder is within its capacity and holds consistent metrics. *)
Definition recorder_ok (s : Page) : Prop :=
  List.length (metrics (performanceMonitor s)) <= 100
  /\ Forall metric_consistent (metrics (performanceMonitor s)).

(** The results text area, where there is one, shows the formatted log. *)
Definition synced (s : Page) : Prop :=
  match resultsElement (browser s) with
  | Some text => text = format_entries (results (tensorDemo s))
  | None => True
  end.

(** What the scripts other than the page's DOM writers work on. *)
Definition state_view (s : Page)
  : PerformanceMonitor * TensorOperationsDemo * Engine * list nat :=
  (performanceMonitor s, tensorDemo s, tf s, intervals (browser s)).

(** The text of one result in the display. *)
Definition result_block (t c : string) : string :=
  "=== " ++ t ++ " ===" ++ Js.nl ++ c ++ Js.nl ++ Js.nl.

(** The line of one metric in the CSV export. *)
Definition metric_csv_line (m : Metric) : string :=
  Js.join_with ","
    [dquote ++ operation m ++ dquote;
     numToString (executionTime m);
     numToString (memoryBefore m);
     numToString (memoryAfter m);
     numToString (memoryDelta m);
     dateToString (timestamp m)].

(** Of the tensors registered after [before], at most one is disposed. *)
Definition at_most_one_released (before : list TensorCell) (s : Page) : Prop :=
  exists l,
    tensor_view s = (before ++ l)%list
    /\ List.length (filter isDisposed l) <= 1.

(** The type of the chart, if there is a chart. *)
Definition chart_type (s : Page) : option string :=
  match chart (tensorDemo s) with
  | Some c => Some (chartType c)
  | None => None
  end.

(** The cells one call of the benchmarked operation leaves behind: the
    random tensor and the mean are disposed, the square in between is not. *)
Definition benchmark_round : list TensorCell :=
  [released_cell; live_cell; released_cell].


(** The header line of the metrics CSV. *)
Definition metrics_csv_header : string :=
  "operation,executionTime,memoryBefore,memoryAfter,memoryDelta,timestamp".

(** The error of reading a property of [undefined]. *)
Definition undefined_property_error (property : string) : Js.Error :=
  Js.mkError ("Cannot read properties of undefined (reading '" ++ property ++ "')").

End Scripts.

(* ================================================================== *)
(** * A concrete host and concrete pages *)
(* ================================================================== *)

(** A host whose clock advances two milliseconds per read and whose
    engine counts four bytes per live tensor. *)
Definition sample_host : Host := {|
  wallClock := fun n => Js.mkDate (1705314600000 + Js.of_nat n)%float;
  perfClock := fun n => Js.of_nat (2 * n);
  toISOString := fun _ => "2024-01-15T10:30:00.000Z";
  dateToString := fun _ => "Mon Jan 15 2024 10:30:00 GMT+0000";
  toFixed := fun x digits => if PrimFloat.eqb x 0 then "0.00" else "x.xx";
  numToString := fun x => if PrimFloat.eqb x 0 then "0" else "x";
  tensorToString := fun t => "Tensor";
  tensorRank := fun t => 1;
  tensorShapeJson := fun t => "[4]";
  tensorData := fun t => "1,2,3,4";
  tensorArrayJson := fun t => "[1,2,3,4]";
  tensorScalar := fun t => 0%float;
  endScope := map (fun c => mkCell true (disposeCalls c));
  numBytes := fun cells =>
    Js.of_nat (4 * List.length (filter (fun c => negb (isDisposed c)) cells))
|}.

(** The loaded page with a chart, on which the engine's fourth library call
    raises. *)
Definition failing_page : Page :=
  mkPage fresh_monitor (mkDemo [] (Some (mkChart "line" None))) fresh_browser
         (mkEngine [] [None; None; None; Some "Invalid reshape"]) 0.

(** The loaded page with two live tensors. *)
Definition pair_page : Page :=
  mkPage fresh_monitor (mkDemo [] None) fresh_browser
         (mkEngine [live_cell; live_cell] []) 0.

(** The loaded page with a memory element that has no progress bar. *)
Definition barless_page : Page :=
  with_browser (set_memoryElement (Some None)) fresh_page.

(** A page with the execution-time element and one recorded metric. *)
Definition measured_page : Page :=
  with_monitor
    (set_metrics [mkMetric "op" 5 100 150 50 (Js.mkDate 0)]%float)
    (with_browser (set_executionElement (Some "")) fresh_page).

(** The loaded page with a chart that has become a bar chart. *)
Definition bar_page : Page :=
  with_demo (set_chart (Some (mkChart "bar" None))) fresh_page.

(** Performance data with one metric, and with an empty metric list. *)
Definition one_metric_data : PerformanceData :=
  mkPerformanceData None
    (Some [mkMetric "op" 5 100 150 50 (Js.mkDate 0)]%float) None.

Definition no_metrics_data : PerformanceData :=
  mkPerformanceData None (Some []) None.

(* ================================================================== *)
(** * Properties *)
(* ================================================================== *)

Section Properties.

Context {host : Host}.

(** ** The metric recorder *)

Lemma recordMetric_run op t before after s :
  recordMetric op t before after s =
  (Normal tt,
   with_monitor
     (set_metrics
        (keep_last_100
           (metrics (performanceMonitor s)
            ++ [mkMetric op t before after (after - before)%float
                         (wallClock (clockReads (browser s)))])))
     (with_browser (set_clockReads (S (clockReads (browser s)))) s)).
Proof.
  unfold recordMetric, keep_last_100, bind, new_Date, modify, this_metrics, ret.
  simpl.
  destruct (Nat.ltb 100 _); reflexivity.
Qed.

Lemma keep_last_100_skipn (ms : list Metric) (m : Metric) :
  List.length ms <= 100 ->
  (keep_last_100 (ms ++ [m]) = skipn (List.length (ms ++ [m]) - 100) (ms ++ [m])
   /\ List.length (keep_last_100 (ms ++ [m])) <= 100)%list.
Proof.
  intros Hle. unfold keep_last_100.
  rewrite length_app. simpl List.length.
  destruct (Nat.ltb_spec 100 (List.length ms + 1)) as [Hgt|Hsmall].
  - assert (Hlen : List.length ms = 100) by lia.
    destruct ms as [|x ms']; [discriminate|].
    simpl in Hlen. split.
    + replace (List.length (x :: ms') + 1 - 100) with 1 by (simpl; lia).
      reflexivity.
    + simpl. rewrite length_app. simpl. lia.
  - replace (List.length ms + 1 - 100) with 0 by lia. split.
    + reflexivity.
    + rewrite length_app. simpl. lia.
Qed.

Lemma record_all_run (calls : list RecordCall) : forall s,
  List.length (metrics (performanceMonitor s)) <= 100 ->
  let all := (metrics (performanceMonitor s)
              ++ recorded calls (clockReads (browser s)))%list in
  completion (record_all calls) s = Normal tt
  /\ metrics (performanceMonitor (exec (record_all calls) s))
     = skipn (List.length all - 100) all.
Proof.
  induction calls as [|c calls IH]; intros s Hle; simpl.
  - rewrite app_nil_r. split; [reflexivity|].
    replace (_ - 100) with 0 by lia. reflexivity.
  - unfold record_all, completion, exec in *. simpl.
    unfold bind, record at 1 3. rewrite recordMetric_run.
    set (m := mkMetric _ _ _ _ _ _).
    set (s1 := with_monitor _ _).
    destruct (@keep_last_100_skipn _ m Hle) as [Hkeep Hlen].
    assert (Hms1 : metrics (performanceMonitor s1)
                   = keep_last_100 (metrics (performanceMonitor s) ++ [m])%list)
      by reflexivity.
    assert (Hck : clockReads (browser s1) = S (clockReads (browser s)))
      by reflexivity.
    specialize (IH s1). rewrite Hms1, Hck in IH.
    destruct (IH Hlen) as [IHc IHm]. split; [exact IHc|].
    rewrite IHm. fold (metric_of c (clockReads (browser s))).
    change (mkMetric _ _ _ _ _ _) with (metric_of c (clockReads (browser s))) in *.
    subst m.
    set (ms := metrics (performanceMonitor s)) in *.
    set (mc := metric_of c (clockReads (browser s))) in *.
    set (rest := recorded calls (S (clockReads (browser s)))).
    rewrite Hkeep.
    rewrite !length_app, !length_skipn, !length_app. simpl List.length.
    destruct (Nat.le_gt_cases (List.length ms + 1) 100) as [Hs|Hb].
    + replace (List.length ms + 1 - 100) with 0 by lia. simpl skipn.
      rewrite <- app_assoc. simpl.
      f_equal. lia.
    + assert (Hl : List.length ms = 100) by lia.
      destruct ms as [|x ms']; [discriminate|].
      simpl in Hl.
      replace (List.length (x :: ms') + 1 - 100) with 1 by (simpl; lia).
      simpl skipn at 2.
      replace (List.length (x :: ms') + S (List.length rest) - 100)
        with (S (List.length rest)) by (simpl; lia).
      simpl.
      f_equal; [lia | now rewrite <- app_assoc].
Qed.

Lemma recorded_length (calls : list RecordCall) : forall read,
  List.length (recorded calls read) = List.length calls.
Proof. induction calls; intros; simpl; auto. Qed.

(** C1. From a new recorder, N [recordMetric] calls always complete and
    leave exactly the metrics of those calls in call order when N <= 100,
    and exactly those of the last 100 calls when N > 100; the recorder
    never holds more than 100; and every further call appends its metric
    and, once 100 are held, drops exactly the oldest one. *)
Theorem recordMetric_keeps_last_100 :
  forall (d : TensorOperationsDemo) (b : Browser) (e : Engine) (i : nat)
         (calls : list RecordCall) (c : RecordCall),
    let s := mkPage fresh_monitor d b e i in
    let s' := exec (record_all calls) s in
    let held := metrics (performanceMonitor s') in
    let all := recorded calls (clockReads b) in
    let next := metric_of c (clockReads (browser s')) in
    completion (record_all calls) s = Normal tt
    /\ held = (if Nat.leb (List.length calls) 100 then all
               else skipn (List.length calls - 100) all)
    /\ List.length held = Nat.min (List.length calls) 100
    /\ metrics (performanceMonitor (exec (record c) s'))
       = (if Nat.ltb (List.length held) 100 then held ++ [next]
          else tl held ++ [next])%list.
Proof.
  intros d b e i calls c s s' held all next.
  assert (H0 : List.length (metrics (performanceMonitor s)) <= 100)
    by (simpl; lia).
  destruct (record_all_run calls s H0) as [Hc Hm].
  simpl in Hm. fold s' in Hm. fold held in Hm. fold all in Hm.
  assert (Hall : List.length all = List.length calls)
    by apply recorded_length.
  rewrite Hall in Hm.
  assert (Hlen : List.length held = Nat.min (List.length calls) 100).
  { rewrite Hm, length_skipn, Hall. lia. }
  split; [exact Hc|]. split; [|split; [exact Hlen|]].
  - destruct (Nat.leb_spec (List.length calls) 100) as [Hle|Hgt].
    + rewrite Hm. replace (List.length calls - 100) with 0 by lia. reflexivity.
    + exact Hm.
  - unfold exec, record. rewrite recordMetric_run. simpl.
    fold held. unfold keep_last_100. rewrite length_app. simpl List.length.
    destruct (Nat.ltb_spec (List.length held) 100) as [Hlt|Hge].
    + destruct (Nat.ltb_spec 100 (List.length held + 1)); [lia|reflexivity].
    + destruct (Nat.ltb_spec 100 (List.length held + 1)); [|lia].
      destruct held as [|x held']; [simpl in Hge; lia|reflexivity].
Qed.

(** C6. [getSummary] completes with a value computed from the metric list
    alone and leaves the page as it was; on an empty recorder the value is
    the all-zero summary; and after one metric with execution time 5,
    memory before 100 and memory after 150 was recorded into an empty
    recorder it is 1, 5, 50 and 150. *)
Theorem getSummary_pure_and_examples :
  forall (s : Page) (op : string),
    let empty := with_monitor (set_metrics []) s in
    let one := exec (recordMetric op 5 100 150)%float empty in
    getSummary s = (Normal (summary_of (metrics (performanceMonitor s))), s)
    /\ getSummary empty = (Normal (mkSummary 0 0 0 0 None)%float, empty)
    /\ exists ops,
         getSummary one = (Normal (mkSummary 1 5 50 150 (Some ops))%float, one).
Proof.
  intros s op empty one. split; [reflexivity|]. split; [reflexivity|].
  eexists. subst one. unfold exec. rewrite recordMetric_run.
  reflexivity.
Qed.

(** C7. [formatResults] returns a text computed from the result list alone
    and leaves the page as it was, so a second call with nothing appended
    in between returns the same text; after [clearResults] the text is
    the empty string. *)
Theorem formatResults_reproducible :
  forall (s : Page),
    formatResults s = (Normal (format_entries (results (tensorDemo s))), s)
    /\ completion formatResults (exec formatResults s)
       = completion formatResults s
    /\ completion formatResults (exec clearResults s) = Normal "".
Proof.
  intros s. split; [reflexivity|]. split; [reflexivity|].
  unfold clearResults, updateResults, exec, completion, bind, modify, get.
  simpl. destruct (resultsElement (browser s)); reflexivity.
Qed.

(** ** Parts of the page a statement leaves alone *)

Lemma keeps_ret {A X} (view : Page -> X) (a : A) : keeps view (ret a).
Proof. intros s. reflexivity. Qed.

Lemma keeps_throw {A X} (view : Page -> X) e : keeps view (@throw A e).
Proof. intros s. reflexivity. Qed.

Lemma keeps_get {X} (view : Page -> X) : keeps view get.
Proof. intros s. reflexivity. Qed.

Lemma keeps_modify {X} (view : Page -> X) f :
  (forall s, view (f s) = view s) -> keeps view (modify f).
Proof. intros H s. apply H. Qed.

Lemma keeps_bind {A B X} (view : Page -> X) (m : M A) (k : A -> M B) :
  keeps view m -> (forall a, keeps view (k a)) -> keeps view (bind m k).
Proof.
  intros Hm Hk s. specialize (Hm s). unfold exec, bind in *.
  destruct (m s) as [[a|e] s1]; simpl in *.
  - rewrite <- Hm. apply Hk.
  - exact Hm.
Qed.

Lemma keeps_try_catch {A X} (view : Page -> X) (m : M A) h :
  keeps view m -> (forall e, keeps view (h e)) -> keeps view (try_catch m h).
Proof.
  intros Hm Hh s. specialize (Hm s). unfold exec, try_catch in *.
  destruct (m s) as [[a|e] s1]; simpl in *.
  - exact Hm.
  - rewrite <- Hm. apply Hh.
Qed.

Lemma keeps_forEach {A X} (view : Page -> X) (f : A -> M unit) xs :
  (forall x, keeps view (f x)) -> keeps view (forEach f xs).
Proof.
  intros Hf. induction xs as [|x xs IH]; simpl.
  - apply keeps_ret.
  - apply keeps_bind; [apply Hf | intros _; exact IH].
Qed.

Lemma keeps_library_call {X} (view : Page -> X) :
  (forall s p, view (with_tf (set_pending p) s) = view s) ->
  keeps view library_call.
Proof.
  intros H s. unfold exec, library_call.
  destruct (pending (tf s)) as [|[msg|] rest]; simpl; auto.
Qed.

Lemma keeps_tensor_isDisposed {X} (view : Page -> X) t :
  keeps view (tensor_isDisposed t).
Proof.
  intros s. unfold exec, tensor_isDisposed.
  destruct (nth_error _ _); reflexivity.
Qed.

Lemma keeps_create_tensors {X} (view : Page -> X) n : forall ts,
  keeps view tf_tensor -> keeps view (create_tensors n ts).
Proof.
  induction n as [|n IH]; intros ts H; simpl.
  - apply keeps_ret.
  - apply keeps_bind; [exact H|intros t; now apply IH].
Qed.

Lemma keeps_dispose_each {X} (view : Page -> X) ts : forall index content,
  (forall t, keeps view (tensor_dispose t)) ->
  keeps view (dispose_each ts index content).
Proof.
  induction ts as [|t ts IH]; intros index content H; simpl.
  - apply keeps_ret.
  - apply keeps_bind; [apply H|intros _; now apply IH].
Qed.

Lemma keeps_benchmark_loop {X} (view : Page -> X) (operation : M unit) n :
  forall ts,
    keeps view performance_now -> keeps view (call operation) ->
    keeps view (benchmark_loop operation n ts).
Proof.
  induction n as [|n IH]; intros ts Hnow Hop; simpl.
  - apply keeps_ret.
  - apply keeps_bind; [exact Hnow|intros start_].
    apply keeps_bind; [exact Hop|intros _].
    apply keeps_bind; [exact Hnow|intros end_]. now apply IH.
Qed.

Ltac head_of t :=
  match t with
  | ?f _ => head_of f
  | _ => t
  end.

(** Walks through a statement: structure first, then the primitives, and
    a named function is opened. *)
Ltac keeps_tac :=
  repeat first
    [ apply keeps_ret
    | apply keeps_throw
    | apply keeps_get
    | apply keeps_tensor_isDisposed
    | apply keeps_library_call; intros ? ?; reflexivity
    | apply keeps_modify; intros ?; reflexivity
    | apply keeps_bind; [|intros ?]
    | apply keeps_try_catch; [|intros ?]
    | apply keeps_forEach; intros ?
    | apply keeps_create_tensors
    | apply keeps_dispose_each; intros ?
    | apply keeps_benchmark_loop
    | match goal with
      | |- keeps _ (match ?x with _ => _ end) => destruct x
      end
    | solve [intros ?; reflexivity]
    | progress cbv zeta
    | match goal with
      | |- keeps _ ?m => let h := head_of m in progress unfold h
      end ].

(** ** The sampler's timer *)

Lemma start_when_monitoring s :
  isMonitoring (performanceMonitor s) = true -> start s = (Normal tt, s).
Proof. intros H. unfold start, bind, get. now rewrite H. Qed.

Lemma stop_when_idle s :
  isMonitoring (performanceMonitor s) = false -> stop s = (Normal tt, s).
Proof. intros H. unfold stop, bind, get. now rewrite H. Qed.

Lemma start_sets_flag s :
  isMonitoring (performanceMonitor (exec start s)) = true.
Proof.
  unfold exec, start, bind, get.
  destruct (isMonitoring (performanceMonitor s)) eqn:E; simpl; auto.
Qed.

Lemma stop_clears_flag s :
  isMonitoring (performanceMonitor (exec stop s)) = false.
Proof.
  unfold exec, stop, bind, get.
  destruct (isMonitoring (performanceMonitor s)) eqn:E; simpl; auto.
  destruct (truthy_interval _); reflexivity.
Qed.

Lemma start_timers_ok s : timers_ok (timer_view s) -> timers_ok (timer_view (exec start s)).
Proof.
  intros H.
  destruct (isMonitoring (performanceMonitor s)) eqn:E.
  - unfold exec. now rewrite (start_when_monitoring s E).
  - unfold timer_view, timers_ok in *. rewrite E in H.
    destruct H as [Hn [[_ [Hs Hi]]|[id [_ [_ [Hm _]]]]]]; [|discriminate].
    unfold exec, start, bind, get. rewrite E. simpl. rewrite Hi.
    split; [lia|]. right. exists (nextTimer (browser s)).
    repeat split; auto.
Qed.

Lemma stop_timers_ok s : timers_ok (timer_view s) -> timers_ok (timer_view (exec stop s)).
Proof.
  intros H.
  destruct (isMonitoring (performanceMonitor s)) eqn:E.
  - unfold timer_view, timers_ok in *. rewrite E in H.
    destruct H as [Hn [[Hm _]|[id [Hid [Hlt [_ [Hs Hi]]]]]]]; [discriminate|].
    unfold exec, stop, bind, get. rewrite E. simpl. rewrite Hs.
    destruct id as [|id']; [congruence|]. simpl.
    rewrite Hi. simpl. rewrite Nat.eqb_refl. simpl.
    split; [exact Hn|]. left. auto.
  - unfold exec. now rewrite (stop_when_idle s E).
Qed.

Lemma perform_timers_ok a s :
  timers_ok (timer_view s) -> timers_ok (timer_view (exec (perform a) s)).
Proof.
  intros H.
  destruct a;
    try (simpl perform; first [now apply start_timers_ok | now apply stop_timers_ok]);
    match goal with
    | |- timers_ok (timer_view (exec ?m s)) =>
        assert (K : keeps timer_view m) by keeps_tac; now rewrite K
    end.
Qed.

Lemma reachable_timers_ok s : reachable s -> timers_ok (timer_view s).
Proof.
  induction 1 as [s [Hm [Hi Hn]]|s a _ IH].
  - unfold timer_view, timers_ok. rewrite Hm, Hi. simpl. auto.
  - now apply perform_timers_ok.
Qed.

(** C10. [start] while monitoring and [stop] while not monitoring complete
    and leave the whole page as it was, so a second [start] or [stop] in a
    row changes nothing; and on every page reachable from the loaded one at
    most one interval timer is scheduled, and the monitoring flag is set
    exactly when one is. *)
Theorem start_stop_idempotent :
  forall (s : Page),
    reachable s ->
    (isMonitoring (performanceMonitor s) = true -> start s = (Normal tt, s))
    /\ (isMonitoring (performanceMonitor s) = false -> stop s = (Normal tt, s))
    /\ exec start (exec start s) = exec start s
    /\ exec stop (exec stop s) = exec stop s
    /\ List.length (intervals (browser s)) <= 1
    /\ (isMonitoring (performanceMonitor s) = true
        <-> List.length (intervals (browser s)) = 1).
Proof.
  intros s R.
  split; [apply start_when_monitoring|].
  split; [apply stop_when_idle|].
  split.
  { unfold exec at 1. now rewrite (start_when_monitoring _ (start_sets_flag s)). }
  split.
  { unfold exec at 1. now rewrite (stop_when_idle _ (stop_clears_flag s)). }
  pose proof (reachable_timers_ok R) as H.
  unfold timer_view, timers_ok in H.
  destruct H as [_ [[Hm [_ Hi]]|[id [_ [_ [Hm [_ Hi]]]]]]];
    rewrite Hm, Hi; simpl; split; try lia; split; congruence.
Qed.

(** ** The demo runner *)

Lemma triple_bind {A B} P (m : M A) (k : A -> M B) R Q E :
  triple P m R E -> (forall a, triple (R a) (k a) Q E) ->
  triple P (bind m k) Q E.
Proof.
  intros Hm Hk s HP. specialize (Hm s HP). unfold bind.
  destruct (m s) as [[a|e] s1].
  - apply (Hk a s1 Hm).
  - exact Hm.
Qed.

Lemma triple_keeps {A X} (view : Page -> X) (x : X) (m : M A) E :
  keeps view m ->
  (forall e s, view s = x -> E e s) ->
  triple (fun s => view s = x) m (fun _ s' => view s' = x) E.
Proof.
  intros K HE s Hs. specialize (K s). unfold exec in K.
  destruct (m s) as [[a|e] s1]; simpl in K; [congruence|].
  apply HE. congruence.
Qed.

(** A step that leaves the view alone, inside a longer statement. *)
Lemma triple_step {A B X} (view : Page -> X) (x : X) (m : M A) (k : A -> M B) Q E :
  keeps view m ->
  (forall e s, view s = x -> E e s) ->
  (forall a, triple (fun s => view s = x) (k a) Q E) ->
  triple (fun s => view s = x) (bind m k) Q E.
Proof.
  intros K HE Hk. eapply triple_bind; [apply triple_keeps; eassumption|exact Hk].
Qed.

Lemma log_view_record rs0 pm0 n0 (e : Js.Error) s :
  log_view s = (rs0, pm0, n0) -> record_view s = (rs0, pm0).
Proof. unfold log_view, record_view. congruence. Qed.

Lemma addResult_run (t c : string) (s : Page) :
  exists s',
    addResult t c s = (Normal tt, s')
    /\ results (tensorDemo s')
       = (results (tensorDemo s)
          ++ [mkResult t c (wallClock (clockReads (browser s)))])%list
    /\ performanceMonitor s' = performanceMonitor s
    /\ tf s' = tf s.
Proof.
  unfold addResult, formatResults, updateResults.
  unfold bind, new_Date, modify, get, ret. simpl.
  destruct (resultsElement (browser s)); eexists; repeat split.
Qed.

(** The clock reads of the benchmark loop: two per iteration. *)
Lemma benchmark_loop_clock (operation : M unit) rs0 pm0 :
  keeps log_view (call operation) ->
  forall n ts n0,
    triple (fun s => log_view s = (rs0, pm0, n0))
      (benchmark_loop operation n ts)
      (fun _ s' => log_view s' = (rs0, pm0, n0 + 2 * n))
      (fun _ s' => record_view s' = (rs0, pm0)).
Proof.
  intros Hop. induction n as [|n IH]; intros ts n0; simpl benchmark_loop.
  - intros s Hs. simpl. rewrite Hs. f_equal. lia.
  - eapply triple_bind with (R := fun _ s' => log_view s' = (rs0, pm0, S n0)).
    { intros s Hs. unfold log_view in *. simpl. congruence. }
    intros start_.
    apply triple_step; [exact Hop|apply log_view_record|intros _].
    eapply triple_bind with (R := fun _ s' => log_view s' = (rs0, pm0, S (S n0))).
    { intros s Hs. unfold log_view in *. simpl. congruence. }
    intros end_.
    replace (n0 + 2 * S n) with (S (S n0) + 2 * n) by lia.
    apply IH.
Qed.

Lemma benchmark_clock (operation : M unit) n rs0 pm0 n0 :
  keeps log_view (call operation) ->
  triple (fun s => log_view s = (rs0, pm0, n0))
    (benchmark operation n)
    (fun _ s' => log_view s' = (rs0, pm0, n0 + 2 * n))
    (fun _ s' => record_view s' = (rs0, pm0)).
Proof.
  intros Hop. unfold benchmark.
  apply triple_step; [keeps_tac|apply log_view_record|intros before].
  eapply triple_bind; [apply benchmark_loop_clock; exact Hop|intros ts].
  apply triple_step; [keeps_tac|apply log_view_record|intros after].
  cbv zeta. intros s Hs. exact Hs.
Qed.

(** The steps of a [try] block up to the one that moves the clock. *)
Ltac demo_steps :=
  repeat (apply triple_step; [solve [keeps_tac]|apply log_view_record|intros ?]).

(** The end of every [try] block: end time, memory sample, [addResult]. *)
Ltac demo_closing :=
  let s := fresh "s" in
  let Hs := fresh "Hs" in
  let Hr := fresh "Hr" in
  let Hp := fresh "Hp" in
  let Hn := fresh "Hn" in
  intros s Hs; unfold log_view in Hs; injection Hs as Hr Hp Hn;
  unfold bind at 1, performance_now at 1; unfold bind at 1, tf_memory_numBytes at 1;
  match goal with
  | |- context [addResult ?t ?c ?s1] =>
      let s' := fresh "s'" in
      let Hrun := fresh "Hrun" in
      let Hres := fresh "Hres" in
      let Hpm := fresh "Hpm" in
      destruct (addResult_run t c s1) as [s' [Hrun [Hres [Hpm _]]]];
      rewrite Hrun;
      cbn [with_browser set_clockReads tensorDemo browser clockReads results
           performanceMonitor tf] in Hres, Hpm;
      rewrite Hr, Hn in Hres;
      eexists _, _; split; [exact Hres|now rewrite Hpm]
  end.

Lemma runTensorShape_try_spec startTime rs0 pm0 n0 :
  demo_try_triple TensorShape startTime rs0 pm0 n0 n0.
Proof.
  unfold demo_try_triple, demo_try, runTensorShape_try. cbv zeta.
  demo_steps. demo_closing.
Qed.

Lemma runDataType_try_spec startTime rs0 pm0 n0 :
  demo_try_triple DataType startTime rs0 pm0 n0 n0.
Proof.
  unfold demo_try_triple, demo_try, runDataType_try. cbv zeta.
  demo_steps. demo_closing.
Qed.

Lemma runMathematical_try_spec startTime rs0 pm0 n0 :
  demo_try_triple Mathematical startTime rs0 pm0 n0 n0.
Proof.
  unfold demo_try_triple, demo_try, runMathematical_try. cbv zeta.
  demo_steps. demo_closing.
Qed.

Lemma runMemory_try_spec startTime rs0 pm0 n0 :
  demo_try_triple Memory startTime rs0 pm0 n0 n0.
Proof.
  unfold demo_try_triple, demo_try, runMemory_try. cbv zeta.
  demo_steps. demo_closing.
Qed.

Lemma runAdvanced_try_spec startTime rs0 pm0 n0 :
  demo_try_triple Advanced startTime rs0 pm0 n0 (n0 + 10).
Proof.
  unfold demo_try_triple, demo_try, runAdvanced_try. cbv zeta.
  demo_steps.
  eapply triple_bind.
  { apply benchmark_clock. keeps_tac. }
  intros benchmarkResult. cbv beta.
  demo_steps. demo_closing.
Qed.

Lemma demo_try_spec (d : Demo) startTime rs0 pm0 n0 :
  demo_try_triple d startTime rs0 pm0 n0 (n0 + demo_clock_reads d).
Proof.
  destruct d; simpl demo_clock_reads; rewrite ?Nat.add_0_r.
  - apply runTensorShape_try_spec.
  - apply runDataType_try_spec.
  - apply runMathematical_try_spec.
  - apply runMemory_try_spec.
  - apply runAdvanced_try_spec.
Qed.

Lemma prefix_refl (x : string) : String.prefix x x = true.
Proof.
  induction x as [|c x IH]; simpl; [reflexivity|].
  destruct (ascii_dec c c); [exact IH|congruence].
Qed.

Lemma includes_unfold (sub s : string) :
  includes sub s
  = String.prefix sub s
    || match s with
       | EmptyString => false
       | String _ rest => includes sub rest
       end.
Proof. destruct s; reflexivity. Qed.

Lemma includes_append (pre sub : string) : includes sub (pre ++ sub) = true.
Proof.
  induction pre as [|c pre IH].
  - change ("" ++ sub) with sub. rewrite includes_unfold, prefix_refl. reflexivity.
  - change (String c pre ++ sub) with (String c (pre ++ sub)).
    rewrite includes_unfold, IH. apply orb_true_r.
Qed.

Lemma run_demo_unfold (d : Demo) (s : Page) :
  run_demo d s
  = try_catch (demo_try d (perfClock (clockReads (browser s))))
      (fun error => addResult "Error" (demo_error_prefix d ++ Js.message error))
      (exec performance_now s).
Proof. destruct d; reflexivity. Qed.

Lemma runTensorShape_unfold (s : Page) :
  runTensorShape s
  = try_catch (runTensorShape_try (perfClock (clockReads (browser s))))
      (fun error =>
         addResult "Error" ("Error in shape operations: " ++ Js.message error))
      (exec performance_now s).
Proof. reflexivity. Qed.

(** C4, as the code has it. When the [try] block of a demo completes, the
    demo's call completes, exactly one entry is appended to the result log,
    titled with the demo's name, whose content is the narrative followed by
    the elapsed time (end minus start) and a memory sample, both as text;
    [recordMetric] is not called: the monitor is as it was. *)
Theorem demo_success_logged :
  forall (d : Demo) (s s2 : Page),
    let start_read := clockReads (browser s) in
    let end_read := S start_read + demo_clock_reads d in
    let startTime := perfClock start_read in
    let endTime := perfClock end_read in
    demo_try d startTime (exec performance_now s) = (Normal tt, s2) ->
    run_demo d s = (Normal tt, s2)
    /\ (exists narrative bytes,
          results (tensorDemo s2)
          = (results (tensorDemo s)
             ++ [mkResult (demo_title d)
                   (narrative_with_closing d narrative
                      (endTime - startTime)%float bytes)
                   (wallClock (S end_read))])%list)
    /\ performanceMonitor s2 = performanceMonitor s.
Proof.
  intros d s s2 start_read end_read startTime endTime Hrun.
  split.
  { rewrite run_demo_unfold. unfold try_catch. fold start_read startTime.
    now rewrite Hrun. }
  pose proof (@demo_try_spec d startTime (results (tensorDemo s))
                (performanceMonitor s) (S start_read)
                (exec performance_now s) eq_refl) as H.
  rewrite Hrun in H. destruct H as [narrative [bytes [Hres Hpm]]].
  split; [exists narrative, bytes; exact Hres|exact Hpm].
Qed.

(** C5. When a step of the [try] block of a demo throws, the demo's call
    still completes normally; exactly one entry is appended to the result
    log, titled "Error", whose content ends with the message of what was
    thrown; the entries logged before are kept, and the monitor with its
    metrics is as it was. *)
Theorem demo_failure_logged :
  forall (d : Demo) (s s2 : Page) (e : Js.Error),
    let startTime := perfClock (clockReads (browser s)) in
    let text := demo_error_prefix d ++ Js.message e in
    demo_try d startTime (exec performance_now s) = (Throw e, s2) ->
    exists s3 now,
      run_demo d s = (Normal tt, s3)
      /\ results (tensorDemo s3)
         = (results (tensorDemo s) ++ [mkResult "Error" text now])%list
      /\ includes (Js.message e) text = true
      /\ performanceMonitor s3 = performanceMonitor s
      /\ metrics (performanceMonitor s3) = metrics (performanceMonitor s).
Proof.
  intros d s s2 e startTime text Hrun.
  pose proof (@demo_try_spec d startTime (results (tensorDemo s))
                (performanceMonitor s) (S (clockReads (browser s)))
                (exec performance_now s) eq_refl) as H.
  rewrite Hrun in H. unfold record_view in H. injection H as Hr Hp.
  destruct (addResult_run "Error" text s2) as [s3 [Hadd [Hres [Hpm _]]]].
  exists s3, (wallClock (clockReads (browser s2))). split.
  { rewrite run_demo_unfold. unfold try_catch. fold startTime.
    rewrite Hrun. exact Hadd. }
  rewrite Hr in Hres. rewrite Hp in Hpm.
  split; [exact Hres|]. split; [apply includes_append|].
  split; [exact Hpm|now rewrite Hpm].
Qed.

(** ** The tensors of a demo invocation *)

Lemma nth_error_shifted {A} (before l : list A) j :
  nth_error (before ++ l) (List.length before + j) = nth_error l j.
Proof.
  rewrite nth_error_app2 by lia. f_equal. lia.
Qed.

Lemma update_nth_shifted {A} (f : A -> A) (before l : list A) j :
  update_nth (List.length before + j) f (before ++ l)
  = (before ++ update_nth j f l)%list.
Proof.
  induction before as [|x before IH]; simpl; [reflexivity|]. now rewrite IH.
Qed.

Lemma triple_pure {A} (fact : Prop) P (m : M A) Q E :
  (fact -> triple P m Q E) -> triple (fun s => fact /\ P s) m Q E.
Proof. intros H s [Hf HP]. now apply H. Qed.

Lemma library_call_tensors before E :
  (forall e s, tensor_view s = before -> E e s) ->
  triple (fun s => tensor_view s = before) library_call
    (fun _ s' => tensor_view s' = before) E.
Proof.
  intros HE. apply triple_keeps; [|exact HE]. keeps_tac.
Qed.

(** A new tensor goes to the end of the register, undisposed. *)
Lemma tf_tensor_fresh before l E :
  (forall e s, tensor_view s = (before ++ l)%list -> E e s) ->
  triple (fun s => tensor_view s = (before ++ l)%list) tf_tensor
    (fun a s' => a = List.length before + List.length l
                 /\ tensor_view s' = (before ++ l ++ [live_cell])%list) E.
Proof.
  intros HE. unfold tf_tensor.
  eapply triple_bind; [apply library_call_tensors; exact HE|intros ?].
  intros s Hs. unfold allocate, tensor_view in *. simpl.
  rewrite Hs, length_app, <- app_assoc. auto.
Qed.

Lemma throwIfDisposed_live before l j c E :
  nth_error l j = Some c -> isDisposed c = false ->
  triple (fun s => tensor_view s = (before ++ l)%list)
    (throwIfDisposed (List.length before + j))
    (fun _ s' => tensor_view s' = (before ++ l)%list) E.
Proof.
  intros Hj Hc s Hs.
  unfold throwIfDisposed, bind, tensor_isDisposed. unfold tensor_view in Hs.
  rewrite Hs, nth_error_shifted, Hj, Hc. exact Hs.
Qed.

(** A tensor made from a live one goes to the end of the register. *)
Lemma tensor_op_fresh before l j c E :
  nth_error l j = Some c -> isDisposed c = false ->
  (forall e s, tensor_view s = (before ++ l)%list -> E e s) ->
  triple (fun s => tensor_view s = (before ++ l)%list)
    (tensor_op (List.length before + j))
    (fun a s' => a = List.length before + List.length l
                 /\ tensor_view s' = (before ++ l ++ [live_cell])%list) E.
Proof.
  intros Hj Hc HE. unfold tensor_op.
  eapply triple_bind; [eapply throwIfDisposed_live; eassumption|intros ?].
  apply tf_tensor_fresh. exact HE.
Qed.

Lemma safeDispose_shifted before : forall positions l s,
  tensor_view s = (before ++ l)%list ->
  exists s',
    safeDispose (handles_from before positions) s = (Normal tt, s')
    /\ tensor_view s' = (before ++ release positions l)%list.
Proof.
  induction positions as [|j positions IH]; intros l s Hs.
  - exists s. split; [reflexivity|exact Hs].
  - unfold handles_from, safeDispose. simpl map. simpl forEach.
    unfold bind at 1. unfold bind at 1, tensor_isDisposed at 1.
    unfold tensor_view in Hs. rewrite Hs, nth_error_shifted.
    simpl release.
    destruct (nth_error l j) as [c|] eqn:Hj; [destruct (isDisposed c)|].
    + simpl. apply (IH l s). exact Hs.
    + simpl. unfold tensor_dispose, modify.
      apply IH. unfold tensor_view. simpl. rewrite Hs.
      apply update_nth_shifted.
    + simpl. unfold tensor_dispose, modify.
      apply IH. unfold tensor_view. simpl. rewrite Hs.
      rewrite update_nth_shifted. f_equal.
      clear - Hj. revert j Hj.
      induction l as [|x l IHl]; intros [|j] Hj; simpl in *;
        try reflexivity; try discriminate.
      now rewrite IHl.
Qed.

(** Whatever is thrown, the tensors made so far are all undisposed. *)
Ltac register_side :=
  let e := fresh in
  let s := fresh in
  let H := fresh in
  intros e s H; match type of H with
                | _ = (_ ++ ?l)%list => exists (List.length l); exact H
                end.

(** One step of the [try] block of [runTensorShape], seen from the
    register of tensors: a step that leaves it alone, or one that makes a
    tensor and tells its handle. *)
Ltac register_step :=
  first
    [ apply triple_step; [solve [keeps_tac]|register_side|intros ?]
    | eapply triple_bind;
      [ first [ apply tf_tensor_fresh; register_side
              | eapply tensor_op_fresh; [reflexivity|reflexivity|register_side] ]
      | let a := fresh "t" in
        intros a; apply triple_pure; intros ->;
        cbn [List.length app] ] ].

(** The tensors of a [runTensorShape] invocation. When the [try] block
    completes, each of the eighteen tensors it made has been disposed by
    exactly one [dispose] call; when it throws, every tensor it made until
    then is left undisposed, and [dispose] was never called on it. Tensors
    that existed before are not touched. *)
Lemma runTensorShape_try_tensors (startTime : Js.number) (before : list TensorCell) :
  triple (fun s => tensor_view s = (before ++ [])%list)
    (runTensorShape_try startTime)
    (fun _ s' => tensor_view s' = (before ++ repeat released_cell 18)%list)
    (fun _ s' => exists k, tensor_view s' = (before ++ repeat live_cell k)%list).
Proof.
  unfold runTensorShape_try. cbv zeta.
  do 37 register_step.
  intros s Hs.
  unfold bind at 1.
  destruct (@safeDispose_shifted before
              [0; 1; 2; 3; 4; 5; 6; 7; 8; 9; 10; 11; 12; 13; 14; 15; 16; 17]
              _ s Hs) as [s1 [Hrun Hheap]].
  unfold handles_from in Hrun. cbn [map] in Hrun.
  rewrite Hrun.
  unfold bind at 1, performance_now at 1. unfold bind at 1, tf_memory_numBytes at 1.
  match goal with
  | |- context [addResult ?t ?c ?s2] =>
      destruct (addResult_run t c s2) as [s' [Hadd [_ [_ Htf]]]]
  end.
  rewrite Hadd. unfold tensor_view in *. rewrite Htf. exact Hheap.
Qed.

(** X26. The tensors of a [runTensorShape] call, on any page: when its
    [try] block completes, each of the eighteen tensors it made has been
    disposed by exactly one [dispose] call; when a step throws, every
    tensor made until then is left undisposed, for the [catch] block does
    not dispose anything either. *)
Lemma runTensorShape_tensors (s : Page) :
  let s1 := exec performance_now s in
  let body := runTensorShape_try (perfClock (clockReads (browser s))) in
  let after := tensors (tf (exec runTensorShape s)) in
  match completion body s1 with
  | Normal _ => after = (tensors (tf s) ++ repeat released_cell 18)%list
  | Throw _ => exists k, after = (tensors (tf s) ++ repeat live_cell k)%list
  end.
Proof.
  intros s1 body after.
  assert (H0 : tensor_view s1 = (tensors (tf s) ++ [])%list)
    by (rewrite app_nil_r; reflexivity).
  pose proof (@runTensorShape_try_tensors (perfClock (clockReads (browser s)))
                (tensors (tf s)) s1 H0) as H.
  fold body in H.
  assert (Hrun : exec runTensorShape s
                 = snd (match body s1 with
                        | (Normal a, s2) => (Normal a, s2)
                        | (Throw e, s2) =>
                            addResult "Error"
                              ("Error in shape operations: " ++ Js.message e) s2
                        end)) by reflexivity.
  subst after. rewrite Hrun. unfold completion.
  destruct (body s1) as [[[]|e] s2]; simpl fst.
  - exact H.
  - destruct H as [k Hk]. exists k.
    destruct (addResult_run "Error"
                ("Error in shape operations: " ++ Js.message e) s2)
      as [s3 [Hadd [_ [_ Htf]]]].
    rewrite Hadd. simpl snd. rewrite Htf. exact Hk.
Qed.

(** ** The benchmark helper *)



(** C2, as the code has it. [benchmark] with zero iterations never calls
    the operation and does not fail: it completes, with the page as it was,
    an empty list of times and the difference of the two memory samples. *)
Theorem benchmark_zero_iterations :
  forall (operation : M unit) (s : Page),
    exists r,
      benchmark operation 0 s = (Normal r, s)
      /\ invocations (exec (benchmark operation 0) s) = invocations s
      /\ times r = []
      /\ b_memoryDelta r
         = (numBytes (tensors (tf s)) - numBytes (tensors (tf s)))%float.
Proof.
  intros operation s. eexists. split; [reflexivity|].
  repeat split.
Qed.

(** ** The export helpers *)

Lemma dash_clean (c : ascii) :
  Ascii.eqb ":" (Js.dash c) = false /\ Ascii.eqb "." (Js.dash c) = false.
Proof.
  unfold Js.dash.
  destruct (Ascii.eqb_spec c ":") as [->|H1]; [split; reflexivity|].
  destruct (Ascii.eqb_spec c ".") as [->|H2]; [split; reflexivity|].
  cbn [orb]. split; apply Ascii.eqb_neq; congruence.
Qed.

Lemma replace_colon_dot_clean (x : string) :
  Js.occurs ":" (Js.replace_colon_dot x) = false
  /\ Js.occurs "." (Js.replace_colon_dot x) = false
  /\ String.length (Js.replace_colon_dot x) = String.length x.
Proof.
  induction x as [|c x [IH1 [IH2 IH3]]]; [repeat split|].
  cbn [Js.replace_colon_dot Js.occurs String.length].
  destruct (dash_clean c) as [D1 D2].
  rewrite D1, D2, IH1, IH2, IH3. repeat split.
Qed.

Lemma exportReport_plain_run (results : list ResultEntry) (format : string) s :
  let report := plain_report results (clockReads (browser s)) in
  exportReport results None format s
  = (if String.eqb format "html" then
       exportHTMLReport report ("report-" ++ file_stamp s ++ ".html")
     else if String.eqb format "txt" then
       exportTextReport report ("report-" ++ file_stamp s ++ ".txt")
     else
       exportJSON (report_json report) ("report-" ++ file_stamp s ++ ".json"))
      (with_browser (set_clockReads (S (S (clockReads (browser s))))) s).
Proof. reflexivity. Qed.

(** C8. [exportReport] given any result list, no performance data and any
    format completes normally and hands over exactly one file; the HTML and
    the text document have an empty performance block, and the JSON report
    has [performance: null] and a [results] array as long as the list. *)
Theorem exportReport_without_performance :
  forall (results : list ResultEntry) (format : string) (s : Page),
    let report := plain_report results (clockReads (browser s)) in
    exists d,
      completion (exportReport results None format) s = Normal tt
      /\ downloads (browser (exec (exportReport results None format) s))
         = (downloads (browser s) ++ [d])%list
      /\ payload d
         = (if String.eqb format "html" then Text (html_document report "")
            else if String.eqb format "txt" then Text (text_document report ++ "")
            else Stringified (report_json report))
      /\ json_field "performance" (report_json report) = Some JNull
      /\ exists items,
           json_field "results" (report_json report) = Some (JArr items)
           /\ List.length items = List.length results.
Proof.
  intros results format s report.
  unfold completion, exec. rewrite exportReport_plain_run. fold report.
  destruct (String.eqb format "html"); [|destruct (String.eqb format "txt")];
    (eexists; split; [reflexivity|]; split; [reflexivity|]; split; [reflexivity|];
     split; [reflexivity|];
     exists (map result_json results); split; [reflexivity|apply length_map]).
Qed.

(** C9, as the code has it. Every file handed over by
    [exportPerformanceData] and [exportReport] is named after the ISO
    timestamp of the call with every ':' and '.' replaced by '-' (none is
    left, nothing else changes length); [exportResults] always uses the
    fixed name [tensor-operations-results.json]. *)
Theorem export_filenames :
  forall (s : Page) (pd : PerformanceData) (results : list ResultEntry)
         (performance : option PerformanceData) (format : string),
    let iso := toISOString (wallClock (clockReads (browser s))) in
    let stamp := file_stamp s in
    let performance_files :=
      downloads (browser (exec (exportPerformanceData pd format) s)) in
    let report_files :=
      downloads (browser (exec (exportReport results performance format) s)) in
    (stamp = Js.replace_colon_dot iso
     /\ Js.occurs ":" stamp = false
     /\ Js.occurs "." stamp = false
     /\ String.length stamp = String.length iso)
    /\ (performance_files = downloads (browser s)
        \/ exists d,
             performance_files = (downloads (browser s) ++ [d])%list
             /\ filename d
                = "performance-" ++ stamp
                  ++ (if String.eqb format "csv" then ".csv" else ".json"))
    /\ (report_files = downloads (browser s)
        \/ exists d,
             report_files = (downloads (browser s) ++ [d])%list
             /\ filename d
                = "report-" ++ stamp
                  ++ (if String.eqb format "html" then ".html"
                      else if String.eqb format "txt" then ".txt" else ".json"))
    /\ exists d,
         downloads (browser (exec exportResults s))
         = (downloads (browser s) ++ [d])%list
         /\ filename d = "tensor-operations-results.json".
Proof.
  intros s pd results performance format iso stamp performance_files report_files.
  split.
  { split; [reflexivity|]. apply replace_colon_dot_clean. }
  split; [|split].
  - subst performance_files. unfold exec, exportPerformanceData.
    unfold bind at 1, new_Date at 1.
    destruct (String.eqb format "csv").
    + destruct (pd_metrics pd) as [[|m ms]|]; simpl.
      * left. reflexivity.
      * right. eexists. split; reflexivity.
      * left. reflexivity.
    + right. eexists. split; reflexivity.
  - subst report_files.
    destruct performance as [perf|].
    + destruct (pd_summary perf) as [sm|] eqn:Hsm.
      * unfold exec, exportReport, exportHTMLReport, exportTextReport,
          html_performance, text_performance.
        unfold bind, new_Date, ret. rewrite Hsm.
        destruct (String.eqb format "html"); [|destruct (String.eqb format "txt")];
          cbn [rp_performance]; try rewrite Hsm;
          right; eexists; split; reflexivity.
      * left. unfold exec, exportReport. unfold bind, new_Date.
        rewrite Hsm. reflexivity.
    + unfold exec. rewrite exportReport_plain_run.
      destruct (String.eqb format "html"); [|destruct (String.eqb format "txt")];
        right; eexists; split; reflexivity.
  - eexists. split; reflexivity.
Qed.

(** ** [safeDispose] on any arguments *)

Lemma length_update_nth {A} (f : A -> A) (l : list A) : forall t,
  List.length (update_nth t f l) = List.length l.
Proof.
  induction l as [|x l IH]; intros [|t]; simpl; auto.
Qed.

Lemma nth_error_update_nth {A} (f : A -> A) (l : list A) : forall t i,
  nth_error (update_nth t f l) i
  = if Nat.eqb i t then option_map f (nth_error l i) else nth_error l i.
Proof.
  induction l as [|x l IH]; intros [|t] [|i]; simpl; auto.
  all: destruct (Nat.eqb i t); reflexivity.
Qed.

Lemma with_tf_same (s : Page) :
  with_tf (fun e => set_tensors (tensors e) e) s = s.
Proof. destruct s as [pm d b [ts p] i]. reflexivity. Qed.

(** What [safeDispose] does, cell by cell. *)
Lemma safeDispose_run :
  forall (handles : list (option nat)) (s : Page),
    let s' := exec (safeDispose handles) s in
    safeDispose handles s = (Normal tt, s')
    /\ s' = with_tf (fun e => set_tensors (tensors (tf s')) e) s
    /\ List.length (tensors (tf s')) = List.length (tensors (tf s))
    /\ forall i c,
         nth_error (tensors (tf s)) i = Some c ->
         nth_error (tensors (tf s')) i
         = Some (if listed i handles && negb (isDisposed c)
                 then dispose_cell c else c).
Proof.
  induction handles as [|h handles IH]; intros s s'.
  - subst s'. unfold exec. simpl. split; [reflexivity|]. split.
    + symmetry. apply with_tf_same.
    + split; [reflexivity|]. intros i c H. rewrite H. reflexivity.
  - assert (Hstep : exists s1,
               safeDispose (h :: handles) s = safeDispose handles s1
               /\ s1 = with_tf (fun e => set_tensors (tensors (tf s1)) e) s
               /\ List.length (tensors (tf s1)) = List.length (tensors (tf s))
               /\ forall i c,
                    nth_error (tensors (tf s)) i = Some c ->
                    nth_error (tensors (tf s1)) i
                    = Some (if listed i [h] && negb (isDisposed c)
                            then dispose_cell c else c)).
    { destruct h as [t|].
      - unfold safeDispose at 1. simpl forEach. unfold bind at 1.
        unfold bind at 1, tensor_isDisposed at 1.
        destruct (nth_error (tensors (tf s)) t) as [c0|] eqn:Ht.
        + destruct (isDisposed c0) eqn:Hd; cbn [negb].
          * exists s. split; [reflexivity|]. split; [symmetry; apply with_tf_same|].
            split; [reflexivity|]. intros i c Hi. rewrite Hi. f_equal.
            unfold listed. simpl. rewrite orb_false_r.
            destruct (Nat.eqb_spec t i) as [->|_]; [|reflexivity].
            assert (c = c0) by congruence. subst c. now rewrite Hd.
          * unfold tensor_dispose, modify.
            eexists. split; [reflexivity|]. simpl.
            split; [reflexivity|]. split; [apply length_update_nth|].
            intros i c Hi. rewrite nth_error_update_nth, Hi.
            unfold listed. simpl. rewrite orb_false_r.
            rewrite (Nat.eqb_sym t i).
            destruct (Nat.eqb_spec i t) as [->|_]; [|reflexivity].
            assert (c = c0) by congruence. subst c. now rewrite Hd.
        + cbn [negb]. unfold tensor_dispose, modify.
          eexists. split; [reflexivity|]. simpl.
          split; [reflexivity|]. split; [apply length_update_nth|].
          intros i c Hi. rewrite nth_error_update_nth, Hi.
          unfold listed. simpl. rewrite orb_false_r.
          rewrite (Nat.eqb_sym t i).
          destruct (Nat.eqb_spec i t) as [->|_]; [congruence|reflexivity].
      - exists s. split; [reflexivity|]. split; [symmetry; apply with_tf_same|].
        split; [reflexivity|]. intros i c Hi. now rewrite Hi. }
    destruct Hstep as [s1 [Hrun [Hframe [Hlen Hcells]]]].
    destruct (IH s1) as [IHrun [IHframe [IHlen IHcells]]].
    assert (Hs' : s' = exec (safeDispose handles) s1)
      by (subst s'; unfold exec; now rewrite Hrun).
    rewrite Hs'. split; [now rewrite Hrun|]. split.
    { rewrite IHframe at 1. rewrite Hframe at 1.
      destruct s as [pm d b [ts p] i]. reflexivity. }
    split; [congruence|].
    intros i c Hi. specialize (Hcells i c Hi).
    rewrite (IHcells i _ Hcells).
    f_equal. unfold listed in *. simpl existsb in *.
    rewrite orb_false_r in Hcells |- *.
    destruct (match h with Some t => Nat.eqb t i | None => false end) eqn:Hh;
      simpl orb; simpl andb.
    + destruct (isDisposed c) eqn:Hd; simpl negb; simpl andb.
      * rewrite Hd. rewrite andb_false_r. reflexivity.
      * simpl. rewrite andb_false_r. reflexivity.
    + reflexivity.
Qed.

(** X1. [safeDispose] never throws, whatever it is given: [null]s, tensors
    that are already disposed and tensors named twice. It touches nothing
    but the tensors; of those, each live tensor among the arguments gets
    exactly one [dispose] call and is disposed afterwards, and every other
    tensor is left exactly as it was. *)
Theorem safeDispose_effect :
  forall (handles : list (option nat)) (s : Page),
    let s' := exec (safeDispose handles) s in
    safeDispose handles s = (Normal tt, s')
    /\ s' = with_tf (fun e => set_tensors (tensors (tf s')) e) s
    /\ List.length (tensors (tf s')) = List.length (tensors (tf s))
    /\ forall i c,
         nth_error (tensors (tf s)) i = Some c ->
         nth_error (tensors (tf s')) i
         = Some (if listed i handles && negb (isDisposed c)
                 then dispose_cell c else c).
Proof. exact safeDispose_run. Qed.

(** X2. A second [safeDispose] of the same arguments is a no-op: it
    completes and leaves the page as the first call left it. *)
Theorem safeDispose_twice :
  forall (handles : list (option nat)) (s : Page),
    let s1 := exec (safeDispose handles) s in
    safeDispose handles s1 = (Normal tt, s1).
Proof.
  intros handles s s1.
  destruct (safeDispose_run handles s) as [_ [_ [Hlen Hcells]]].
  fold s1 in Hlen, Hcells.
  destruct (safeDispose_run handles s1) as [Hrun [Hframe [_ Hcells2]]].
  rewrite Hrun. f_equal.
  rewrite Hframe.
  assert (Hsame : tensors (tf (exec (safeDispose handles) s1)) = tensors (tf s1)).
  { apply nth_error_ext. intros i.
    destruct (nth_error (tensors (tf s1)) i) as [c1|] eqn:H1.
    - rewrite (Hcells2 i c1 H1). f_equal.
      destruct (nth_error (tensors (tf s)) i) as [c|] eqn:H0.
      + rewrite (Hcells i c H0) in H1. injection H1 as <-.
        destruct (listed i handles); [|reflexivity].
        destruct (isDisposed c) eqn:Hd; simpl; [now rewrite Hd|reflexivity].
      + apply nth_error_None in H0. rewrite <- Hlen in H0.
        apply nth_error_None in H0. congruence.
    - apply nth_error_None.
      destruct (safeDispose_run handles s1) as [_ [_ [Hlen2 _]]].
      rewrite Hlen2. now apply nth_error_None. }
  rewrite Hsame. apply with_tf_same.
Qed.

(** ** The recorder and the sampler on every reachable page *)

Lemma Forall_tl {A} (P : A -> Prop) (l : list A) : Forall P l -> Forall P (tl l).
Proof. intros H. destruct l; [exact H|]. now inversion H. Qed.

Lemma record_recorder_ok (c : RecordCall) (s : Page) :
  recorder_ok s -> recorder_ok (exec (record c) s).
Proof.
  intros [Hlen Hall]. unfold exec, record. rewrite recordMetric_run.
  unfold recorder_ok. simpl.
  set (m := mkMetric _ _ _ _ _ _).
  destruct (@keep_last_100_skipn (metrics (performanceMonitor s)) m Hlen)
    as [_ Hle].
  split; [exact Hle|].
  unfold keep_last_100. destruct (Nat.ltb 100 _).
  - apply Forall_tl. apply Forall_app. split; [exact Hall|].
    constructor; [reflexivity|constructor].
  - apply Forall_app. split; [exact Hall|].
    constructor; [reflexivity|constructor].
Qed.

Lemma updateDisplay_completes (s : Page) :
  updateDisplay s = (Normal tt, exec updateDisplay s).
Proof.
  unfold exec, updateDisplay, try_catch.
  destruct (updateDisplay_body s) as [[[]|e] s1]; reflexivity.
Qed.

Lemma updateDisplay_keeps_state : keeps state_view updateDisplay.
Proof. keeps_tac. Qed.

Lemma perform_recorder_ok (a : Action) (s : Page) :
  recorder_ok s -> recorder_ok (exec (perform a) s).
Proof.
  intros H. destruct a.
  6: { (* clear *)
    unfold recorder_ok.
    assert (K : metrics (performanceMonitor (exec (perform DoClear) s)) = []).
    { unfold perform, clear, exec, bind, modify.
      assert (Ku : keeps (fun s => metrics (performanceMonitor s)) updateDisplay)
        by keeps_tac.
      unfold keeps, exec in Ku. now rewrite Ku. }
    rewrite K. simpl. split; [lia|constructor]. }
  4: { now apply record_recorder_ok. }
  all: match goal with
       | |- recorder_ok (exec ?m _) =>
           assert (K : keeps (fun p => metrics (performanceMonitor p)) m)
             by keeps_tac;
           unfold recorder_ok; now rewrite K
       end.
Qed.

(** X3. On every page reachable through the monitor's methods, timer
    ticks and the demo handlers (in any order), the recorder holds at most
    100 metrics, and every metric's [memoryDelta] is its [memoryAfter]
    minus its [memoryBefore]. *)
Theorem reachable_recorder_ok :
  forall (s : Page), reachable s -> recorder_ok s.
Proof.
  induction 1 as [s [Hm _]|s a _ IH].
  - unfold recorder_ok. rewrite Hm. simpl. split; [lia|constructor].
  - now apply perform_recorder_ok.
Qed.

(** X4. On every reachable page, [stop] leaves no interval timer
    scheduled, the stored id cleared and the flag unset; [start] leaves
    exactly one timer scheduled, and it is the one whose id is stored. So
    the timer made on page load is really cancelled on unload. *)
Theorem start_and_stop_on_reachable :
  forall (s : Page),
    reachable s ->
    (intervals (browser (exec stop s)) = []
     /\ updateInterval (performanceMonitor (exec stop s)) = None
     /\ isMonitoring (performanceMonitor (exec stop s)) = false)
    /\ exists id,
         intervals (browser (exec start s)) = [id]
         /\ updateInterval (performanceMonitor (exec start s)) = Some id
         /\ isMonitoring (performanceMonitor (exec start s)) = true.
Proof.
  intros s R. pose proof (reachable_timers_ok R) as H. split.
  - pose proof (stop_timers_ok H) as Hs.
    pose proof (stop_clears_flag s) as Hf.
    unfold timer_view, timers_ok in Hs. rewrite Hf in Hs.
    destruct Hs as [_ [[_ [Hu Hi]]|[id [_ [_ [Hm _]]]]]]; [|discriminate].
    auto.
  - pose proof (start_timers_ok H) as Hs.
    pose proof (start_sets_flag s) as Hf.
    unfold timer_view, timers_ok in Hs. rewrite Hf in Hs.
    destruct Hs as [_ [[Hm _]|[id [_ [_ [_ [Hu Hi]]]]]]]; [discriminate|].
    exists id. auto.
Qed.

(** X5. [clear] of the monitor never throws, even when the display cannot
    be updated; afterwards the recorder is empty and [getSummary] gives the
    all-zero summary, while the sampler's flag and timer, the result log
    and the tensors are as they were. *)
Theorem clear_empties_recorder :
  forall (s : Page),
    let s' := exec clear s in
    clear s = (Normal tt, s')
    /\ metrics (performanceMonitor s') = []
    /\ completion getSummary s' = Normal (mkSummary 0 0 0 0 None)%float
    /\ timer_view s' = timer_view s
    /\ tensorDemo s' = tensorDemo s
    /\ tf s' = tf s.
Proof.
  intros s s'.
  assert (Hrun : clear s = updateDisplay (with_monitor (set_metrics []) s))
    by reflexivity.
  assert (Hs' : s' = exec updateDisplay (with_monitor (set_metrics []) s))
    by (subst s'; unfold exec; now rewrite Hrun).
  pose proof (updateDisplay_keeps_state (with_monitor (set_metrics []) s)) as K.
  rewrite <- Hs' in K. unfold state_view in K. simpl in K.
  injection K as Kpm Kd Ktf Ki.
  assert (Kn : nextTimer (browser s') = nextTimer (browser s)).
  { assert (Kt : keeps timer_view updateDisplay) by keeps_tac.
    specialize (Kt (with_monitor (set_metrics []) s)). rewrite <- Hs' in Kt.
    unfold timer_view in Kt. simpl in Kt. congruence. }
  split; [rewrite Hrun, Hs'; apply updateDisplay_completes|].
  split; [now rewrite Kpm|].
  split; [unfold completion, getSummary, bind, this_metrics; now rewrite Kpm|].
  split; [unfold timer_view; rewrite Kpm, Ki, Kn; reflexivity|].
  split; assumption.
Qed.

(** X6. [updateDisplay], the timer's callback, never throws, and it only
    writes to the display and the console: the monitor, the demo with its
    result log and chart, the engine and the scheduled timers are left as
    they were. *)
Theorem updateDisplay_is_harmless :
  forall (s : Page),
    updateDisplay s = (Normal tt, exec updateDisplay s)
    /\ state_view (exec updateDisplay s) = state_view s.
Proof.
  intros s. split; [apply updateDisplay_completes|apply updateDisplay_keeps_state].
Qed.

(** X7. When the page has the memory element but no progress bar inside
    it, [updateDisplay] logs one console error and gives up: the execution
    time is not refreshed either, although it comes after in the code and
    does not depend on the progress bar. *)
Theorem updateDisplay_without_progress_bar :
  forall (s : Page),
    memoryElement (browser s) = Some None ->
    browser (exec updateDisplay s)
    = set_consoleErrors
        (consoleErrors (browser s)
         ++ ["Error updating performance display: Cannot read properties of null (reading 'style')"])%list
        (browser s).
Proof.
  intros s H. unfold exec, updateDisplay, try_catch, updateDisplay_body.
  unfold bind at 1, tf_memory_numBytes at 1. unfold bind at 1, get at 1.
  unfold bind at 1. rewrite H. reflexivity.
Qed.

(** X8. When the memory element is absent or complete, the execution-time
    element exists and the recorder is not empty, [updateDisplay] shows the
    very average that [getSummary] reports, with two decimals and "ms". *)
Theorem updateDisplay_shows_summary_average :
  forall (s : Page) (old : string),
    memoryElement (browser s) <> Some None ->
    executionElement (browser s) = Some old ->
    metrics (performanceMonitor s) <> [] ->
    executionElement (browser (exec updateDisplay s))
    = Some (toFixed (averageExecutionTime
                       (summary_of (metrics (performanceMonitor s)))) 2 ++ "ms").
Proof.
  intros s old Hm He Hne.
  unfold exec, updateDisplay, try_catch, updateDisplay_body.
  unfold bind at 1, tf_memory_numBytes at 1. unfold bind at 1, get at 1.
  unfold summary_of.
  destruct (metrics (performanceMonitor s)) as [|m ms] eqn:Hms; [congruence|].
  destruct (memoryElement (browser s)) as [[bar|]|] eqn:Hmem; [| congruence |].
  - unfold bind, modify, get. simpl. rewrite He, Hms. reflexivity.
  - unfold bind, ret, modify, get. simpl. rewrite He, Hms. reflexivity.
Qed.

(** ** The demo handlers and the display *)

(** X9. A demo handler never throws, for any of the five demos and on any
    page: it returns normally, having appended exactly one entry to the
    result log, titled with the demo's name or "Error", and having left
    the monitor as it was. *)
Theorem run_demo_appends_one_entry :
  forall (d : Demo) (s : Page),
    exists s' entry,
      run_demo d s = (Normal tt, s')
      /\ results (tensorDemo s') = (results (tensorDemo s) ++ [entry])%list
      /\ (title entry = demo_title d \/ title entry = "Error")
      /\ performanceMonitor s' = performanceMonitor s.
Proof.
  intros d s.
  pose proof (@demo_try_spec d (perfClock (clockReads (browser s)))
                (results (tensorDemo s)) (performanceMonitor s)
                (S (clockReads (browser s)))
                (exec performance_now s) eq_refl) as H.
  rewrite run_demo_unfold. unfold try_catch.
  destruct (demo_try d _ (exec performance_now s)) as [[[]|e] s2].
  - destruct H as [narrative [bytes [Hres Hpm]]].
    eexists s2, _. split; [reflexivity|]. split; [exact Hres|].
    split; [left; reflexivity|exact Hpm].
  - unfold record_view in H. injection H as Hr Hp.
    destruct (addResult_run "Error" (demo_error_prefix d ++ Js.message e) s2)
      as [s3 [Hadd [Hres [Hpm _]]]].
    eexists s3, _. split; [exact Hadd|]. split; [rewrite Hres, Hr; reflexivity|].
    split; [right; reflexivity|]. now rewrite Hpm.
Qed.

Lemma append_assoc_string (a b c : string) : (a ++ b) ++ c = a ++ (b ++ c).
Proof. induction a as [|x a IH]; simpl; [reflexivity|now rewrite IH]. Qed.

Lemma join_app (xs ys : list string) :
  Js.join (xs ++ ys) = Js.join xs ++ Js.join ys.
Proof.
  unfold Js.join. induction xs as [|x xs IH]; simpl; [reflexivity|].
  now rewrite IH, append_assoc_string.
Qed.

Lemma append_empty_string (a : string) : a ++ "" = a.
Proof. induction a as [|x a IH]; simpl; [reflexivity|now rewrite IH]. Qed.

Lemma format_entries_snoc (rs : list ResultEntry) (r : ResultEntry) :
  format_entries (rs ++ [r])
  = format_entries rs ++ result_block (title r) (content r).
Proof.
  unfold format_entries. rewrite map_app, join_app. simpl.
  unfold Js.join at 2. simpl. now rewrite append_empty_string.
Qed.

(** X10. [addResult] only ever adds to the text of the log: the text
    [formatResults] gives after it is the text from before followed by the
    block of the new entry, and that is what the results text area then
    shows, where the page has one. *)
Theorem addResult_appends_block :
  forall (t c : string) (s : Page),
    let s' := exec (addResult t c) s in
    let text := format_entries (results (tensorDemo s)) ++ result_block t c in
    addResult t c s = (Normal tt, s')
    /\ completion formatResults s' = Normal text
    /\ resultsElement (browser s')
       = match resultsElement (browser s) with
         | Some _ => Some text
         | None => None
         end.
Proof.
  intros t c s s' text. subst s' text.
  unfold exec, completion, addResult, formatResults, updateResults.
  unfold bind, new_Date, modify, get, ret. simpl.
  rewrite <- (format_entries_snoc (results (tensorDemo s))
                (mkResult t c (wallClock (clockReads (browser s))))).
  destruct (resultsElement (browser s)) eqn:E; repeat split; simpl; exact E.
Qed.

Lemma addResult_synced (t c : string) (s : Page) :
  exists s', addResult t c s = (Normal tt, s') /\ synced s'.
Proof.
  destruct (addResult_run t c s) as [s' [H _]]. exists s'. split; [exact H|].
  assert (Hs' : s' = exec (addResult t c) s) by (unfold exec; now rewrite H).
  rewrite Hs'.
  unfold synced, exec, addResult, formatResults, updateResults.
  unfold bind, new_Date, modify, get, ret. simpl.
  destruct (resultsElement (browser s)) eqn:E; simpl; rewrite ?E; auto.
Qed.

Lemma triple_any {A} (m : M A) :
  triple (fun _ => True) m (fun _ _ => True) (fun _ _ => True).
Proof. intros s _. destruct (m s) as [[a|e] s']; exact I. Qed.

(** Skips the steps of a [try] block down to its last statement. *)
Ltac to_last_statement :=
  repeat match goal with
         | |- triple _ (bind _ _) _ _ =>
             eapply triple_bind; [apply triple_any|intros ?]
         end.

Lemma demo_try_synced (d : Demo) (startTime : Js.number) :
  triple (fun _ => True) (demo_try d startTime)
    (fun _ s' => synced s') (fun _ _ => True).
Proof.
  destruct d; unfold demo_try;
    [unfold runTensorShape_try|unfold runDataType_try
    |unfold runMathematical_try|unfold runMemory_try|unfold runAdvanced_try];
    cbv zeta; to_last_statement;
    (intros s _;
     match goal with
     | |- context [addResult ?t ?c s] =>
         destruct (addResult_synced t c s) as [s' [Hrun Hs]]; now rewrite Hrun
     end).
Qed.

Lemma run_demo_synced (d : Demo) (s : Page) : synced (exec (run_demo d) s).
Proof.
  unfold exec. rewrite run_demo_unfold. unfold try_catch.
  pose proof (@demo_try_synced d (perfClock (clockReads (browser s)))
                (exec performance_now s) I) as H.
  destruct (demo_try d _ (exec performance_now s)) as [[[]|e] s2].
  - exact H.
  - destruct (addResult_synced "Error" (demo_error_prefix d ++ Js.message e) s2)
      as [s3 [Hrun Hs]].
    now rewrite Hrun.
Qed.

Lemma clearResults_synced (s : Page) : synced (exec clearResults s).
Proof.
  unfold synced, exec, clearResults, updateResults, bind, modify, get.
  simpl. destruct (resultsElement (browser s)) eqn:E; simpl; rewrite ?E; auto.
Qed.

(** X11. The results text area never lags behind the log: whatever
    happens on the page (monitor methods, timer ticks, demo runs, clearing
    and exporting the results), if the text area showed the formatted log
    before, it shows the formatted log afterwards; and a demo run or
    [clearResults] brings it in line even if it was not. *)
Theorem display_follows_log :
  forall (a : Action) (s : Page),
    (synced s -> synced (exec (perform a) s))
    /\ (forall d, synced (exec (run_demo d) s))
    /\ synced (exec clearResults s).
Proof.
  intros a s. split; [|split].
  - intros H. destruct a.
    7: { apply run_demo_synced. }
    7: { apply clearResults_synced. }
    all: simpl perform;
         match goal with
         | |- synced (exec ?m _) =>
             assert (K : keeps (fun p => (resultsElement (browser p),
                                          results (tensorDemo p))) m)
               by keeps_tac;
             specialize (K s);
             pose proof (f_equal fst K) as K1; pose proof (f_equal snd K) as K2;
             cbn [fst snd] in K1, K2;
             unfold synced in *; rewrite K1, K2; exact H
         end.
  - intros d. apply run_demo_synced.
  - apply clearResults_synced.
Qed.

(** ** The chart *)

Lemma updateChart_keeps_bar (t : nat) :
  triple (fun s => chart_type s = Some "bar") (updateChart t)
    (fun _ s' => chart_type s' = Some "bar")
    (fun _ s' => chart_type s' = Some "bar").
Proof.
  intros s H. unfold chart_type in H.
  unfold updateChart, bind at 1, get at 1.
  destruct (chart (tensorDemo s)) as [c|] eqn:Hc; [|discriminate].
  injection H as Hty.
  unfold bind at 1, throwIfDisposed at 1, bind at 1, tensor_isDisposed at 1.
  assert (Hlib : forall s0, chart_type s0 = Some "bar" ->
            match library_call s0 with
            | (Normal _, s') => chart_type s' = Some "bar"
            | (Throw _, s') => chart_type s' = Some "bar"
            end).
  { intros s0 H0. unfold library_call.
    destruct (pending (tf s0)) as [|[msg|] rest]; simpl; auto. }
  assert (Hrest : forall s0,
            chart (tensorDemo s0) = Some c ->
            match ((if Nat.eqb (tensorRank t) 1
                    then modify (with_demo (set_chart
                           (Some (mkChart (chartType c) (Some t)))))
                    else if Nat.eqb (tensorRank t) 2
                    then modify (with_demo (set_chart
                           (Some (mkChart "bar" (Some t)))))
                    else ret tt) ;; library_call) s0 with
            | (Normal _, s') => chart_type s' = Some "bar"
            | (Throw _, s') => chart_type s' = Some "bar"
            end).
  { intros s0 H0. unfold bind.
    destruct (Nat.eqb (tensorRank t) 1); [|destruct (Nat.eqb (tensorRank t) 2)];
      unfold modify, ret; apply Hlib; unfold chart_type; simpl;
      rewrite ?H0, ?Hty; reflexivity. }
  destruct (nth_error (tensors (tf s)) t) as [cell|]; [destruct (isDisposed cell)|].
  - simpl. unfold chart_type. rewrite Hc, Hty. reflexivity.
  - apply Hrest. exact Hc.
  - apply Hrest. exact Hc.
Qed.

(** X12. [updateChart] without a chart does nothing and cannot throw, not
    even for a disposed tensor; with a chart it never turns a bar chart
    back into a line chart: once the type is "bar" it stays "bar" whatever
    tensor is shown next, whether the call completes or throws. *)
Theorem updateChart_bar_is_sticky :
  forall (t : nat) (s : Page),
    (chart (tensorDemo s) = None -> updateChart t s = (Normal tt, s))
    /\ (chart_type s = Some "bar" ->
        chart_type (exec (updateChart t) s) = Some "bar").
Proof.
  intros t s. split.
  - intros H. unfold updateChart, bind, get. now rewrite H.
  - intros H.
    pose proof (@updateChart_keeps_bar t s H) as K.
    unfold exec. destruct (updateChart t s) as [[[]|e] s']; exact K.
Qed.

Ltac bar_steps :=
  repeat first
    [ apply triple_step;
      [solve [keeps_tac]|intros ? ? ?; assumption|intros ?]
    | eapply triple_bind; [apply updateChart_keeps_bar|intros ?] ];
  apply triple_keeps; [keeps_tac|intros ? ? ?; assumption].

Lemma demo_try_keeps_bar (d : Demo) (startTime : Js.number) :
  triple (fun s => chart_type s = Some "bar") (demo_try d startTime)
    (fun _ s' => chart_type s' = Some "bar")
    (fun _ s' => chart_type s' = Some "bar").
Proof.
  destruct d; unfold demo_try;
    [unfold runTensorShape_try|unfold runDataType_try
    |unfold runMathematical_try|unfold runMemory_try|unfold runAdvanced_try];
    cbv zeta; bar_steps.
Qed.

(** X13. The bar type survives the whole session: no monitor method, timer
    tick, demo run, clearing or exporting ever sets the chart's type back,
    so after a demo has shown a rank-2 tensor every later demo draws its
    data on a bar chart. *)
Theorem bar_chart_for_the_session :
  forall (a : Action) (s : Page),
    chart_type s = Some "bar" ->
    chart_type (exec (perform a) s) = Some "bar".
Proof.
  intros a s H. destruct a.
  7: { simpl perform. unfold exec. rewrite run_demo_unfold. unfold try_catch.
       assert (H1 : chart_type (exec performance_now s) = Some "bar") by exact H.
       pose proof (@demo_try_keeps_bar d (perfClock (clockReads (browser s)))
                     (exec performance_now s) H1) as K.
       destruct (demo_try d _ (exec performance_now s)) as [[[]|e] s2];
         [exact K|].
       assert (Ka : keeps chart_type
                      (addResult "Error" (demo_error_prefix d ++ Js.message e)))
         by keeps_tac.
       specialize (Ka s2). unfold exec in Ka. now rewrite Ka. }
  all: simpl perform;
       match goal with
       | |- chart_type (exec ?m _) = _ =>
           assert (K : keeps chart_type m) by keeps_tac; now rewrite K
       end.
Qed.

(** ** The tensors of the other demos and of the helpers *)

Lemma throwIfDisposed_old before l t c E :
  nth_error before t = Some c -> isDisposed c = false ->
  triple (fun s => tensor_view s = (before ++ l)%list) (throwIfDisposed t)
    (fun _ s' => tensor_view s' = (before ++ l)%list) E.
Proof.
  intros Ht Hc s Hs.
  unfold throwIfDisposed, bind, tensor_isDisposed. unfold tensor_view in Hs.
  rewrite Hs, nth_error_app1 by (apply nth_error_Some; congruence).
  rewrite Ht, Hc. exact Hs.
Qed.

(** A tensor made from two live ones that were made in this run. *)
Lemma tensor_op2_fresh before l j1 j2 c1 c2 E :
  nth_error l j1 = Some c1 -> isDisposed c1 = false ->
  nth_error l j2 = Some c2 -> isDisposed c2 = false ->
  (forall e s, tensor_view s = (before ++ l)%list -> E e s) ->
  triple (fun s => tensor_view s = (before ++ l)%list)
    (tensor_op2 (List.length before + j1) (List.length before + j2))
    (fun a s' => a = List.length before + List.length l
                 /\ tensor_view s' = (before ++ l ++ [live_cell])%list) E.
Proof.
  intros H1 L1 H2 L2 HE. unfold tensor_op2.
  eapply triple_bind; [eapply throwIfDisposed_live; eassumption|intros ?].
  eapply triple_bind; [eapply throwIfDisposed_live; eassumption|intros ?].
  apply tf_tensor_fresh. exact HE.
Qed.

(** A tensor made from two live ones that existed before. *)
Lemma tensor_op2_old before t1 t2 c1 c2 E :
  nth_error before t1 = Some c1 -> isDisposed c1 = false ->
  nth_error before t2 = Some c2 -> isDisposed c2 = false ->
  (forall e s, tensor_view s = (before ++ [])%list -> E e s) ->
  triple (fun s => tensor_view s = (before ++ [])%list) (tensor_op2 t1 t2)
    (fun a s' => a = List.length before + 0
                 /\ tensor_view s' = (before ++ [] ++ [live_cell])%list) E.
Proof.
  intros H1 L1 H2 L2 HE. unfold tensor_op2.
  eapply triple_bind; [eapply throwIfDisposed_old; eassumption|intros ?].
  eapply triple_bind; [eapply throwIfDisposed_old; eassumption|intros ?].
  apply (@tf_tensor_fresh before [] E HE).
Qed.

Lemma tensor_dispose_at before l j E :
  triple (fun s => tensor_view s = (before ++ l)%list)
    (tensor_dispose (List.length before + j))
    (fun _ s' => tensor_view s' = (before ++ update_nth j dispose_cell l)%list) E.
Proof.
  intros s Hs. unfold tensor_dispose, modify, tensor_view in *. simpl.
  rewrite Hs. apply update_nth_shifted.
Qed.

(** One step seen from the register of tensors, for any description
    [side] of what a throw may leave behind. *)
Ltac heap_step side :=
  first
    [ apply triple_step; [solve [keeps_tac]|side|intros ?]
    | eapply triple_bind;
      [ first [ apply tf_tensor_fresh; side
              | eapply tensor_op_fresh; [reflexivity|reflexivity|side]
              | eapply tensor_op2_fresh;
                [reflexivity|reflexivity|reflexivity|reflexivity|side] ]
      | let a := fresh "t" in
        intros a; apply triple_pure; intros ->;
        cbn [List.length app] ]
    | eapply triple_bind;
      [ apply tensor_dispose_at
      | intros ?; cbn [update_nth dispose_cell live_cell disposeCalls] ] ].

(** The end of a [try] block after its steps: [safeDispose] of tensors of
    this run, end time, memory sample, [addResult]. *)
Ltac heap_closing before positions :=
  let s := fresh "s" in
  let Hs := fresh "Hs" in
  intros s Hs;
  unfold bind at 1;
  let s1 := fresh "s1" in
  let Hrun := fresh "Hrun" in
  let Hheap := fresh "Hheap" in
  destruct (@safeDispose_shifted before positions _ s Hs) as [s1 [Hrun Hheap]];
  unfold handles_from in Hrun; cbn [map] in Hrun;
  rewrite Hrun;
  unfold bind at 1, performance_now at 1; unfold bind at 1, tf_memory_numBytes at 1;
  match goal with
  | |- context [addResult ?t ?c ?s2] =>
      let s' := fresh "s'" in
      let Hadd := fresh "Hadd" in
      let Htf := fresh "Htf" in
      destruct (addResult_run t c s2) as [s' [Hadd [_ [_ Htf]]]];
      rewrite Hadd; unfold tensor_view in *; rewrite Htf; exact Hheap
  end.

Lemma runMathematical_try_tensors (startTime : Js.number) (before : list TensorCell) :
  triple (fun s => tensor_view s = (before ++ [])%list)
    (runMathematical_try startTime)
    (fun _ s' => tensor_view s' = (before ++ repeat released_cell 19)%list)
    (fun _ s' => exists k, tensor_view s' = (before ++ repeat live_cell k)%list).
Proof.
  unfold runMathematical_try. cbv zeta.
  do 39 (heap_step register_side).
  heap_closing before
    [0; 1; 2; 3; 4; 5; 6; 7; 8; 9; 10; 11; 12; 13; 14; 15; 16; 17; 18].
Qed.

Ltac data_side :=
  let e := fresh in
  let s := fresh in
  let H := fresh in
  intros e s H; eexists; split; [exact H|simpl; lia].

Lemma runDataType_try_tensors (startTime : Js.number) (before : list TensorCell) :
  triple (fun s => tensor_view s = (before ++ [])%list)
    (runDataType_try startTime)
    (fun _ s' => tensor_view s' = (before ++ repeat released_cell 12)%list)
    (fun _ s' => at_most_one_released before s').
Proof.
  unfold runDataType_try. cbv zeta.
  do 26 (heap_step data_side).
  heap_closing before [0; 1; 2; 3; 4; 5; 6; 7; 8; 9; 10].
Qed.

(** From the [try] block to the handler: the [catch] block leaves the
    tensors alone. *)
Lemma run_demo_tensors (d : Demo) (before : list TensorCell)
    (Q E : Page -> Prop) :
  (forall s s', tf s' = tf s -> E s -> E s') ->
  (forall startTime,
      triple (fun s => tensor_view s = (before ++ [])%list) (demo_try d startTime)
        (fun _ s' => Q s') (fun _ s' => E s')) ->
  forall s,
    tensors (tf s) = before ->
    match completion (demo_try d (perfClock (clockReads (browser s))))
            (exec performance_now s) with
    | Normal _ => Q (exec (run_demo d) s)
    | Throw _ => E (exec (run_demo d) s)
    end.
Proof.
  intros HE Htry s Hs.
  assert (H0 : tensor_view (exec performance_now s) = (before ++ [])%list)
    by (rewrite app_nil_r; exact Hs).
  pose proof (Htry (perfClock (clockReads (browser s))) _ H0) as H.
  unfold exec at 2 3. rewrite run_demo_unfold. unfold try_catch, completion.
  destruct (demo_try d _ (exec performance_now s)) as [[[]|e] s2]; simpl fst.
  - exact H.
  - destruct (addResult_run "Error" (demo_error_prefix d ++ Js.message e) s2)
      as [s3 [Hadd [_ [_ Htf]]]].
    rewrite Hadd. simpl snd. now apply (HE s2).
Qed.

(** X14. The tensors of a [runMathematical] call, on any page: when its
    [try] block completes, each of the nineteen tensors it made has been
    disposed by exactly one [dispose] call; when a step throws, every
    tensor made until then is left undisposed. Tensors that existed before
    are not touched. *)
Theorem runMathematical_tensors :
  forall (s : Page),
    let after := tensors (tf (exec runMathematical s)) in
    match completion (runMathematical_try (perfClock (clockReads (browser s))))
            (exec performance_now s) with
    | Normal _ => after = (tensors (tf s) ++ repeat released_cell 19)%list
    | Throw _ => exists k, after = (tensors (tf s) ++ repeat live_cell k)%list
    end.
Proof.
  intros s after. subst after.
  apply (@run_demo_tensors Mathematical (tensors (tf s))
           (fun s' => tensors (tf s') = (tensors (tf s) ++ repeat released_cell 19)%list)
           (fun s' => exists k,
                tensors (tf s') = (tensors (tf s) ++ repeat live_cell k)%list)).
  - intros s1 s2 Htf [k Hk]. exists k. now rewrite Htf.
  - intros startTime. apply runMathematical_try_tensors.
  - reflexivity.
Qed.

(** X15. The tensors of a [runDataType] call, on any page: when its [try]
    block completes, each of the twelve tensors it made has been disposed
    by exactly one [dispose] call (eleven by [safeDispose], one by the
    demo's own [dispose]); when a step throws, at most one of the tensors
    made until then has been disposed. *)
Theorem runDataType_tensors :
  forall (s : Page),
    let s' := exec runDataType s in
    match completion (runDataType_try (perfClock (clockReads (browser s))))
            (exec performance_now s) with
    | Normal _ =>
        tensors (tf s') = (tensors (tf s) ++ repeat released_cell 12)%list
    | Throw _ => at_most_one_released (tensors (tf s)) s'
    end.
Proof.
  intros s s'. subst s'.
  apply (@run_demo_tensors DataType (tensors (tf s))
           (fun s' => tensors (tf s') = (tensors (tf s) ++ repeat released_cell 12)%list)
           (at_most_one_released (tensors (tf s)))).
  - intros s1 s2 Htf [l [Hl Hc]]. exists l. unfold tensor_view in *.
    split; [now rewrite Htf|exact Hc].
  - intros startTime. apply runDataType_try_tensors.
  - reflexivity.
Qed.

Lemma compareTensors_triple (t1 t2 : nat) (before : list TensorCell) c1 c2 :
  nth_error before t1 = Some c1 -> isDisposed c1 = false ->
  nth_error before t2 = Some c2 -> isDisposed c2 = false ->
  triple (fun s => tensor_view s = (before ++ [])%list) (compareTensors t1 t2)
    (fun _ s' => tensor_view s' = (before ++ repeat live_cell 7)%list)
    (fun _ s' => exists k, tensor_view s' = (before ++ repeat live_cell k)%list).
Proof.
  intros H1 L1 H2 L2. unfold compareTensors.
  eapply triple_bind.
  { eapply tensor_op2_old; try eassumption. register_side. }
  intros diff. apply triple_pure. intros ->. cbn [List.length app].
  do 9 (heap_step register_side).
  intros s Hs. exact Hs.
Qed.

(** X16. [compareTensors] disposes nothing: called with two live tensors
    it registers seven new tensors (the difference, its square and
    absolute values and their reductions) and leaves all seven undisposed
    when it returns; when it throws, the ones made until then are left
    undisposed as well. *)
Theorem compareTensors_leaks :
  forall (t1 t2 : nat) (s : Page) (c1 c2 : TensorCell),
    nth_error (tensors (tf s)) t1 = Some c1 -> isDisposed c1 = false ->
    nth_error (tensors (tf s)) t2 = Some c2 -> isDisposed c2 = false ->
    match compareTensors t1 t2 s with
    | (Normal _, s') =>
        tensors (tf s') = (tensors (tf s) ++ repeat live_cell 7)%list
    | (Throw _, s') =>
        exists k, tensors (tf s') = (tensors (tf s) ++ repeat live_cell k)%list
    end.
Proof.
  intros t1 t2 s c1 c2 H1 L1 H2 L2.
  assert (H0 : tensor_view s = (tensors (tf s) ++ [])%list)
    by (now rewrite app_nil_r).
  exact (@compareTensors_triple t1 t2 (tensors (tf s)) c1 c2 H1 L1 H2 L2 s H0).
Qed.

Lemma benchmarked_operation_triple (before l : list TensorCell) E :
  (forall e s l', tensor_view s = (before ++ l ++ l')%list -> E e s) ->
  triple (fun s => tensor_view s = (before ++ l)%list)
    (call benchmarked_operation)
    (fun _ s' => tensor_view s'
                 = (before ++ l ++ [released_cell; live_cell; released_cell])%list)
    E.
Proof.
  intros HE. unfold call, benchmarked_operation.
  apply triple_step; [keeps_tac|intros e s H; apply (HE e s []); now rewrite app_nil_r|intros ?].
  eapply triple_bind.
  { apply tf_tensor_fresh. intros e s H. apply (HE e s []). now rewrite app_nil_r. }
  intros t0. apply triple_pure. intros ->.
  eapply triple_bind.
  { eapply (@tensor_op_fresh before (l ++ [live_cell]) (List.length l) live_cell).
    - rewrite nth_error_app2 by lia. now rewrite Nat.sub_diag.
    - reflexivity.
    - intros e s H. apply (HE e s [live_cell]). exact H. }
  intros t1. apply triple_pure. intros ->.
  eapply triple_bind.
  { eapply (@tensor_op_fresh before ((l ++ [live_cell]) ++ [live_cell])
              (List.length (l ++ [live_cell])) live_cell).
    - rewrite nth_error_app2 by lia. now rewrite Nat.sub_diag.
    - reflexivity.
    - intros e s H. apply (HE e s [live_cell; live_cell]).
      rewrite H, <- !app_assoc. reflexivity. }
  intros t2. apply triple_pure. intros ->.
  eapply triple_bind; [apply tensor_dispose_at|intros ?].
  intros s Hs. unfold tensor_dispose, modify, tensor_view in *. simpl.
  rewrite Hs, update_nth_shifted. f_equal.
  rewrite !length_app. simpl List.length.
  rewrite <- !app_assoc. simpl app.
  clear. induction l as [|x l IH]; simpl; [reflexivity|].
  f_equal. replace (List.length l + 1 + 1) with (S (S (List.length l))) in * by lia.
  replace (List.length l + 1) with (S (List.length l)) in * by lia.
  exact IH.
Qed.

Lemma benchmark_loop_tensors (before : list TensorCell) : forall n ts l,
  triple (fun s => tensor_view s = (before ++ l)%list)
    (benchmark_loop benchmarked_operation n ts)
    (fun _ s' => tensor_view s'
                 = (before ++ l ++ List.concat (repeat benchmark_round n))%list)
    (fun _ s' => exists l', tensor_view s' = (before ++ l')%list).
Proof.
  induction n as [|n IH]; intros ts l; simpl benchmark_loop.
  - intros s Hs. simpl. now rewrite app_nil_r.
  - apply triple_step; [keeps_tac|intros e s H; now exists l|intros start_].
    eapply triple_bind.
    { apply benchmarked_operation_triple. intros e s l' H. now exists (l ++ l')%list. }
    intros ?.
    apply triple_step;
      [keeps_tac|intros e s H; now exists (l ++ benchmark_round)%list|intros end_].
    intros s Hs.
    pose proof (IH (ts ++ [(end_ - start_)%float])%list
                  (l ++ benchmark_round)%list s) as H.
    rewrite <- app_assoc in H. specialize (H Hs).
    destruct (benchmark_loop benchmarked_operation n _ s) as [[r|e] s'];
      [|exact H].
    rewrite H. reflexivity.
Qed.

(** X17. Benchmarking the operation of the advanced demo leaks one tensor
    per iteration: after [n] iterations the engine holds [3 n] new tensors
    of which the [n] intermediate squares are undisposed. Tensors that
    existed before are not touched, whether the benchmark completes or
    throws. *)
Theorem benchmark_of_demo_operation_leaks :
  forall (n : nat) (s : Page),
    match benchmark benchmarked_operation n s with
    | (Normal r, s') =>
        tensors (tf s')
        = (tensors (tf s) ++ List.concat (repeat benchmark_round n))%list
        /\ List.length (filter (fun c => negb (isDisposed c))
                          (List.concat (repeat benchmark_round n))) = n
    | (Throw _, s') => exists l, tensors (tf s') = (tensors (tf s) ++ l)%list
    end.
Proof.
  intros n s.
  assert (Hcount : List.length (filter (fun c => negb (isDisposed c))
                                  (List.concat (repeat benchmark_round n))) = n).
  { induction n as [|n IH]; simpl; [reflexivity|now rewrite IH]. }
  assert (T : triple (fun s0 => tensor_view s0 = (tensors (tf s) ++ [])%list)
                (benchmark benchmarked_operation n)
                (fun _ s' => tensor_view s'
                   = (tensors (tf s) ++ List.concat (repeat benchmark_round n))%list)
                (fun _ s' => exists l, tensor_view s' = (tensors (tf s) ++ l)%list)).
  { unfold benchmark.
    apply triple_step; [keeps_tac|intros e s0 H; now exists []|intros before_].
    eapply triple_bind; [apply benchmark_loop_tensors|intros ts].
    apply triple_step;
      [keeps_tac
      |intros e s0 H; now exists ([] ++ List.concat (repeat benchmark_round n))%list
      |intros after_].
    cbv zeta. intros s0 Hs. exact Hs. }
  assert (H0 : tensor_view s = (tensors (tf s) ++ [])%list)
    by (now rewrite app_nil_r).
  specialize (T s H0).
  destruct (benchmark benchmarked_operation n s) as [[r|e] s']; [|exact T].
  split; [exact T|exact Hcount].
Qed.

(** ** What the measuring helpers throw and count *)








Lemma measureTime_loop_counts {A} (fn : M A) :
  (forall s, exists a s', fn s = (Normal a, s')
                          /\ invocations s' = invocations s
                          /\ clockReads (browser s') = clockReads (browser s)) ->
  forall n rs s,
    exists rs' s',
      measureTime_loop fn n rs s = (Normal rs', s')
      /\ List.length rs' = List.length rs + n
      /\ invocations s' = invocations s + n
      /\ clockReads (browser s') = clockReads (browser s).
Proof.
  intros Hfn. induction n as [|n IH]; intros rs s; simpl.
  - exists rs, s. repeat split; lia.
  - unfold bind at 1, call at 1, bind at 1, modify at 1.
    destruct (Hfn (with_invocations S s)) as [a [s1 [Hrun [Hinv Hclock]]]].
    rewrite Hrun.
    destruct (IH (rs ++ [a])%list s1) as [rs' [s' [Hloop [Hlen [Hc Hk]]]]].
    exists rs', s'. split; [exact Hloop|]. split.
    + rewrite Hlen, length_app. simpl. lia.
    + split; [rewrite Hc, Hinv; simpl; lia|].
      rewrite Hk, Hclock. reflexivity.
Qed.

(** X19. [measureTime] with a function that does not throw and does not
    read the clock itself calls it once per iteration and returns one
    result per call; it reads the clock exactly twice, whatever the
    iteration count, and its total time is the difference of those two
    readings. *)
Theorem measureTime_counts :
  forall (A : Type) (fn : M A) (n : nat) (s : Page),
    (forall s, exists a s', fn s = (Normal a, s')
                            /\ invocations s' = invocations s
                            /\ clockReads (browser s') = clockReads (browser s)) ->
    exists r s',
      measureTime fn n s = (Normal r, s')
      /\ List.length (tm_results r) = n
      /\ iterations r = n
      /\ invocations s' = invocations s + n
      /\ clockReads (browser s') = clockReads (browser s) + 2
      /\ totalTime r
         = (perfClock (S (clockReads (browser s)))
            - perfClock (clockReads (browser s)))%float.
Proof.
  intros A fn n s Hfn. unfold measureTime.
  unfold bind at 1, performance_now at 1.
  set (s0 := with_browser _ s).
  destruct (@measureTime_loop_counts A fn Hfn n [] s0)
    as [rs [s1 [Hloop [Hlen [Hinv Hclock]]]]].
  unfold bind at 1. rewrite Hloop.
  unfold bind at 1, performance_now at 1. unfold ret.
  eexists _, _. split; [reflexivity|]. simpl.
  rewrite Hclock. subst s0. simpl.
  repeat split; try assumption; try lia.
Qed.

(** ** More on the export helpers *)

(** X20. Exporting only hands over files: [exportResults],
    [exportReport] and [exportPerformanceData] leave the monitor with its
    metrics, the demo with its result log, the engine and the timers as
    they were, whether they complete or throw. *)
Theorem exports_are_read_only :
  forall (results : list ResultEntry) (performance : option PerformanceData)
         (pd : PerformanceData) (format : string) (s : Page),
    state_view (exec exportResults s) = state_view s
    /\ state_view (exec (exportReport results performance format) s) = state_view s
    /\ state_view (exec (exportPerformanceData pd format) s) = state_view s.
Proof.
  intros results performance pd format s. split; [|split].
  - assert (K : keeps state_view exportResults) by keeps_tac. apply K.
  - assert (K : keeps state_view (exportReport results performance format))
      by keeps_tac.
    apply K.
  - assert (K : keeps state_view (exportPerformanceData pd format)) by keeps_tac.
    apply K.
Qed.


Lemma metric_row_line (m : Metric) :
  Js.join_with ","
    (map (csv_cell [("operation", CsvString (operation m));
                    ("executionTime", CsvNumber (executionTime m));
                    ("memoryBefore", CsvNumber (memoryBefore m));
                    ("memoryAfter", CsvNumber (memoryAfter m));
                    ("memoryDelta", CsvNumber (memoryDelta m));
                    ("timestamp", CsvDate (timestamp m))])
         ["operation"; "executionTime"; "memoryBefore"; "memoryAfter";
          "memoryDelta"; "timestamp"])
  = metric_csv_line m.
Proof. reflexivity. Qed.

(** X22. The CSV of the performance data: when there is at least one
    metric, [exportPerformanceData] with format "csv" completes and hands
    over one [text/csv] file named after the timestamp whose text is the
    header line
    [operation,executionTime,memoryBefore,memoryAfter,memoryDelta,timestamp]
    followed by one line per metric in order, the operation name in double
    quotes. *)
Theorem exportPerformanceData_csv :
  forall (pd : PerformanceData) (m : Metric) (ms : list Metric) (s : Page),
    let run := exportPerformanceData pd "csv" in
    pd_metrics pd = Some (m :: ms) ->
    completion run s = Normal tt
    /\ downloads (browser (exec run s))
       = (downloads (browser s)
          ++ [mkDownload
                (Text (Js.join_with Js.nl
                         (metrics_csv_header :: map metric_csv_line (m :: ms))))
                "text/csv"
                ("performance-" ++ file_stamp s ++ ".csv")])%list.
Proof.
  intros pd m ms s run H. subst run.
  unfold completion, exec, exportPerformanceData.
  unfold bind at 1 2, new_Date at 1 2.
  cbn [String.eqb Ascii.eqb Bool.eqb]. rewrite H.
  unfold exportCSV. cbn [map fst].
  unfold downloadFile, modify. cbn [fst snd].
  rewrite map_map.
  rewrite (map_ext _ metric_csv_line) by (intros x; apply metric_row_line).
  split; reflexivity.
Qed.

(** X23. The edges of the CSV export. With an empty metric list
    [exportPerformanceData] completes without handing over any file and
    only logs "No data to export" on the console; with no [metrics]
    property at all it throws a TypeError, again without a file. The JSON
    format does not look at the metrics and always hands over one file. *)
Theorem exportPerformanceData_edges :
  forall (pd : PerformanceData) (format : string) (s : Page),
    let csv := exportPerformanceData pd "csv" in
    let json := exportPerformanceData pd format in
    (pd_metrics pd = Some [] ->
     completion csv s = Normal tt
     /\ downloads (browser (exec csv s)) = downloads (browser s)
     /\ consoleErrors (browser (exec csv s))
        = (consoleErrors (browser s) ++ ["No data to export"])%list)
    /\ (pd_metrics pd = None ->
        completion csv s = Throw (undefined_property_error "map")
        /\ downloads (browser (exec csv s)) = downloads (browser s))
    /\ (String.eqb format "csv" = false ->
        completion json s = Normal tt
        /\ exists d, downloads (browser (exec json s))
                     = (downloads (browser s) ++ [d])%list
                     /\ mime d = "application/json").
Proof.
  intros pd format s csv json. subst csv json.
  unfold completion, exec, exportPerformanceData.
  unfold bind at 1 2 3 4 5, new_Date at 1 2 3 4 5.
  cbn [String.eqb Ascii.eqb Bool.eqb].
  split; [|split].
  - intros H. rewrite H. repeat split.
  - intros H. rewrite H. repeat split.
  - intros H. unfold bind, new_Date. rewrite H.
    split; [reflexivity|]. eexists. split; reflexivity.
Qed.

(** ** The monitor's snapshot *)

(** X24. [exportData] of the monitor completes, reads the clock once and
    leaves the monitor as it was; the snapshot's metrics array has one
    element per recorded metric, in order, and the [totalOperations] of
    the summary inside it is the length of that array. *)
Theorem exportData_is_consistent :
  forall (s : Page),
    let ms := metrics (performanceMonitor s) in
    exists v,
      exportData s = (Normal v, with_browser (set_clockReads (S (clockReads (browser s)))) s)
      /\ json_field "metrics" v = Some (JArr (map metric_json ms))
      /\ json_field "summary" v = Some (summary_json (summary_of ms))
      /\ json_field "totalOperations" (summary_json (summary_of ms))
         = Some (JNum (Js.of_nat (List.length (map metric_json ms))))
      /\ json_field "exportTimestamp" v
         = Some (JDate (wallClock (clockReads (browser s)))).
Proof.
  intros s ms. eexists. split; [reflexivity|].
  split; [reflexivity|]. split; [reflexivity|]. split; [|reflexivity].
  rewrite length_map. unfold summary_of. subst ms.
  destruct (metrics (performanceMonitor s)); reflexivity.
Qed.

(** ** Tensors from user input *)


End Properties.

(* ================================================================== *)
(** * The properties at concrete pages *)
(* ================================================================== *)

#[local] Existing Instance sample_host.

(** The helpers on small inputs. *)
Example replace_colon_dot_iso :
  Js.replace_colon_dot "2024-01-15T10:30:00.000Z" = "2024-01-15T10-30-00-000Z".
Proof. reflexivity. Qed.

Example count_matches_twice :
  Js.count_matches "Execution time:" "Execution time: 1ms, Execution time: 2ms" = 2.
Proof. reflexivity. Qed.

Example count_matches_no_overlap : Js.count_matches "aa" "aaaaa" = 2.
Proof. reflexivity. Qed.

Example Math_max_of_nothing : Js.Math_max [] = PrimFloat.neg_infinity.
Proof. reflexivity. Qed.

Example Math_max_picks_largest : Js.Math_max [100; 150; 120]%float = 150%float.
Proof. reflexivity. Qed.

(** 101 calls on the loaded page: the first metric is gone, the other 100
    are held in call order. *)
Example record_101_calls :
  let calls := map (fun i => mkCall "op" (Js.of_nat i) 0%float 0%float) (seq 0 101) in
  map executionTime
      (metrics (performanceMonitor (exec (record_all calls) fresh_page)))
  = map Js.of_nat (seq 1 100).
Proof. vm_compute. reflexivity. Qed.

(** A second [start] schedules no second timer, and [stop] unschedules the
    only one. *)
Example start_twice_then_stop :
  intervals (browser (exec start (exec start fresh_page))) = [1]
  /\ intervals (browser (exec stop (exec start (exec start fresh_page)))) = [].
Proof. split; reflexivity. Qed.

(** C2 as stated fails: with zero iterations [benchmark] does not throw, it
    completes, and its average time is NaN (0/0), its minimum [+Infinity]
    and its maximum [-Infinity]. *)
Lemma benchmark_of_nothing_returns_nan :
  exists r,
    @benchmark sample_host (ret tt) 0 fresh_page = (Normal r, fresh_page)
    /\ (forall e, completion (@benchmark sample_host (ret tt) 0) fresh_page <> Throw e)
    /\ PrimFloat.is_nan (b_averageTime r) = true
    /\ minTime r = PrimFloat.infinity
    /\ maxTime r = PrimFloat.neg_infinity.
Proof.
  eexists. split; [reflexivity|]. split; [discriminate|].
  repeat split.
Qed.

(** C3 at a failing run: the engine's fourth library call (the second
    derived tensor) raises; [runTensorShape] logs the error and returns,
    and the three tensors acquired before are left undisposed, [dispose]
    never having been called on them. *)
Theorem runTensorShape_leaks_on_failure :
  let s' := exec (@runTensorShape sample_host) failing_page in
  completion (@runTensorShape sample_host) failing_page = Normal tt
  /\ map title (results (tensorDemo s')) = ["Error"]
  /\ tensors (tf s') = [mkCell false 0; mkCell false 0; mkCell false 0].
Proof. vm_compute. repeat split. Qed.

(** The success path can leak too: [compareTensors] and the benchmarked
    operation of [runAdvanced] make tensors that nothing disposes. *)
Lemma runAdvanced_leaks_on_success :
  let s' := exec runAdvanced fresh_page in
  completion runAdvanced fresh_page = Normal tt
  /\ map title (results (tensorDemo s')) = ["Advanced Operations"]
  /\ List.length (tensors (tf s')) = 29
  /\ List.length (filter (fun c => negb (isDisposed c)) (tensors (tf s'))) = 12.
Proof. vm_compute. repeat split. Qed.

(** C4 as stated fails: a successful run logs its narrative under the
    demo's name and records no metric. *)
Lemma runTensorShape_records_no_metric :
  let s' := exec (@runTensorShape sample_host) fresh_page in
  completion (@runTensorShape sample_host) fresh_page = Normal tt
  /\ map title (results (tensorDemo s')) = ["Shape Operations"]
  /\ metrics (performanceMonitor s') = [].
Proof. vm_compute. repeat split. Qed.

(** How a statement completed fixes the pair it returns. *)
Lemma completes_with {A} (m : M A) (s : Page) (a : A) :
  completion m s = Normal a -> m s = (Normal a, exec m s).
Proof.
  unfold completion, exec. destruct (m s) as [c s']. simpl. now intros ->.
Qed.

Lemma throws_with {A} (m : M A) (s : Page) (e : Js.Error) :
  completion m s = Throw e -> m s = (Throw e, exec m s).
Proof.
  unfold completion, exec. destruct (m s) as [c s']. simpl. now intros ->.
Qed.

(** The shape demo on the loaded page completes and leaves the monitor
    alone. *)
Lemma demo_success_logged_witness :
  let s1 := exec performance_now fresh_page in
  let s2 := exec (demo_try TensorShape (perfClock 0)) s1 in
  run_demo TensorShape fresh_page = (Normal tt, s2)
  /\ performanceMonitor s2 = performanceMonitor fresh_page.
Proof.
  intros s1 s2.
  destruct
    (@demo_success_logged sample_host TensorShape fresh_page s2
       (completes_with (demo_try TensorShape (perfClock 0)) s1 eq_refl))
    as [Hrun [_ Hpm]].
  exact (conj Hrun Hpm).
Defined.

(** The shape demo on the failing page logs the error and returns. *)
Lemma demo_failure_logged_witness :
  exists s3,
    run_demo TensorShape failing_page = (Normal tt, s3)
    /\ map title (results (tensorDemo s3)) = ["Error"]
    /\ metrics (performanceMonitor s3) = [].
Proof.
  destruct
    (@demo_failure_logged sample_host TensorShape failing_page _
       (Js.mkError "Invalid reshape")
       (throws_with (demo_try TensorShape (perfClock 0))
                    (exec performance_now failing_page) eq_refl))
    as [s3 [now [Hrun [Hres [_ [_ Hms]]]]]].
  exists s3. split; [exact Hrun|]. split.
  - rewrite Hres. reflexivity.
  - rewrite Hms. reflexivity.
Defined.

(** C9 as stated fails: the file [exportResults] hands over is not named
    after the timestamp. *)
Lemma exportResults_filename_has_no_timestamp :
  let s' := exec exportResults fresh_page in
  exists d,
    downloads (browser s') = [d]
    /\ filename d = "tensor-operations-results.json"
    /\ includes (@file_stamp sample_host fresh_page) (filename d) = false.
Proof. eexists. split; [reflexivity|]. split; [reflexivity|]. vm_compute. reflexivity. Qed.

(** After one [start] on the loaded page a second [start] changes nothing
    and one timer is scheduled. *)
Lemma start_stop_idempotent_witness :
  let s := exec (start) fresh_page in
  reachable (host := sample_host) s
  /\ start s = (Normal tt, s)
  /\ List.length (intervals (browser s)) = 1.
Proof.
  intros s.
  assert (R : reachable (host := sample_host) s).
  { apply (@reachable_step sample_host fresh_page DoStart).
    apply reachable_loaded. repeat split. discriminate. }
  destruct (@start_stop_idempotent sample_host s R) as [Hstart [_ [_ [_ [_ Hflag]]]]].
  split; [exact R|]. split.
  - apply Hstart. reflexivity.
  - apply Hflag. reflexivity.
Defined.

(** ** The further properties at concrete pages *)

(** Two live tensors, the second named twice among [null] and an unknown
    handle: only the second is disposed, once. *)
Lemma safeDispose_effect_witness :
  let s' := exec (safeDispose [Some 1; None; Some 1; Some 5]) pair_page in
  nth_error (tensors (tf s')) 0 = Some live_cell
  /\ nth_error (tensors (tf s')) 1 = Some released_cell.
Proof.
  destruct (safeDispose_effect [Some 1; None; Some 1; Some 5] pair_page)
    as [_ [_ [_ Hcells]]].
  split.
  - exact (Hcells 0 live_cell eq_refl).
  - exact (Hcells 1 live_cell eq_refl).
Defined.

(** One recorded metric on the loaded page. *)
Lemma reachable_recorder_ok_witness :
  recorder_ok (exec (perform (DoRecord (mkCall "op" 5 100 150)%float)) fresh_page).
Proof.
  apply reachable_recorder_ok.
  apply reachable_step. apply reachable_loaded. repeat split. discriminate.
Defined.

(** [start] then [stop] on the loaded page leaves no timer. *)
Lemma start_and_stop_on_reachable_witness :
  intervals (browser (exec stop (exec start fresh_page))) = [].
Proof.
  assert (R : reachable (exec start fresh_page)).
  { apply (@reachable_step sample_host fresh_page DoStart).
    apply reachable_loaded. repeat split. discriminate. }
  destruct (@start_and_stop_on_reachable sample_host _ R) as [[H _] _].
  exact H.
Defined.

(** The loaded page with a memory element without progress bar. *)
Lemma updateDisplay_without_progress_bar_witness :
  consoleErrors (browser (exec updateDisplay barless_page))
  = ["Error updating performance display: Cannot read properties of null (reading 'style')"].
Proof.
  rewrite (@updateDisplay_without_progress_bar sample_host barless_page eq_refl).
  reflexivity.
Defined.

(** One metric and an execution-time element: the average is shown. *)
Lemma updateDisplay_shows_summary_average_witness :
  executionElement (browser (exec updateDisplay measured_page)) = Some "x.xxms".
Proof.
  rewrite (@updateDisplay_shows_summary_average sample_host measured_page "").
  - reflexivity.
  - discriminate.
  - reflexivity.
  - discriminate.
Defined.

(** A timer tick after a demo run keeps the text area in line. *)
Lemma display_follows_log_witness :
  synced (exec (perform DoTick) (exec (run_demo TensorShape) fresh_page)).
Proof.
  destruct (@display_follows_log sample_host DoTick
              (exec (run_demo TensorShape) fresh_page)) as [H _].
  apply H.
  destruct (@display_follows_log sample_host DoTick fresh_page) as [_ [H' _]].
  apply H'.
Defined.

(** Showing a rank-1 tensor on a bar chart leaves it a bar chart. *)
Lemma updateChart_bar_is_sticky_witness :
  chart_type (exec (updateChart 0) bar_page) = Some "bar".
Proof.
  destruct (@updateChart_bar_is_sticky sample_host 0 bar_page) as [_ H].
  apply H. reflexivity.
Defined.

(** A run of the shape demo leaves a bar chart a bar chart. *)
Lemma bar_chart_for_the_session_witness :
  chart_type (exec (perform (DoRun TensorShape)) bar_page) = Some "bar".
Proof.
  apply bar_chart_for_the_session. reflexivity.
Defined.

(** Comparing the two live tensors of a page leaves nine live tensors. *)
Lemma compareTensors_leaks_witness :
  match compareTensors 0 1 pair_page with
  | (Normal _, s') => tensors (tf s') = repeat live_cell 9
  | (Throw _, _) => False
  end.
Proof.
  pose proof (@compareTensors_leaks sample_host 0 1 pair_page live_cell live_cell
                eq_refl eq_refl eq_refl eq_refl) as H.
  destruct (compareTensors 0 1 pair_page) as [[r|e] s'] eqn:E.
  - exact H.
  - vm_compute in E. discriminate.
Defined.



(** Three iterations of a function that returns 7. *)
Lemma measureTime_counts_witness :
  exists r s',
    measureTime (ret 7) 3 fresh_page = (Normal r, s')
    /\ List.length (tm_results r) = 3.
Proof.
  destruct (@measureTime_counts sample_host nat (ret 7) 3 fresh_page)
    as [r [s' [Hrun [Hlen _]]]].
  - intros s. exists 7, s. repeat split.
  - exists r, s'. split; assumption.
Defined.

(** The CSV export of one metric completes. *)
Lemma exportPerformanceData_csv_witness :
  completion (exportPerformanceData one_metric_data "csv") fresh_page = Normal tt.
Proof.
  destruct (@exportPerformanceData_csv sample_host one_metric_data
              (mkMetric "op" 5 100 150 50 (Js.mkDate 0))%float [] fresh_page eq_refl)
    as [H _].
  exact H.
Defined.

(** The CSV export of an empty metric list hands over no file. *)
Lemma exportPerformanceData_edges_witness :
  downloads (browser (exec (exportPerformanceData no_metrics_data "csv") fresh_page))
  = [].
Proof.
  destruct (@exportPerformanceData_edges sample_host no_metrics_data "json" fresh_page)
    as [H _].
  destruct (H eq_refl) as [_ [Hd _]]. exact Hd.
Defined.

